(** * SpeedVision AI: the dashboard's detection hook

    A shallow embedding of [useSpeedDetection] (the React hook that drives
    the dashboard), of [generateRandomVehicle], of the CSV export and of the
    overspeed test of [SpeedGauge], followed by the properties of the
    repository's specification that concern them.

    Conventions of the embedding:
    - JavaScript numbers that the code only ever fills with integers
      (speeds, limits, counters, millisecond clock readings) are [Z];
      numbers that are genuinely fractional (confidence, box coordinates,
      gauge percentage) are exact rationals [Q], so the rounding of IEEE
      doubles is not modelled;
    - [Math.random()] and [Date.now()] are inputs: every call site reads
      its value from a record of draws handed to the function;
    - React state is an explicit record, and every callback of the hook is
      a function from state to state. *)

From Stdlib Require Import ZArith QArith Qround Qminmax String Ascii Lia.
From Stdlib Require Import Decimal DecimalString DecimalPos DecimalZ Lqa.
From Stdlib Require Import Sorted.
From stdpp Require Import base decidable list strings.

Local Open Scope Z_scope.
Local Open Scope string_scope.

(** ** Numbers and strings *)

(** A result of [Math.random()]: a number [r] with [0 <= r < 1]. *)
Definition in_unit (q : Q) : bool :=
  Qle_bool 0 q && negb (Qle_bool 1 q).

Record Random : Type := mkRandom {
  rval : Q;
  rval_unit : in_unit rval = true
}.

(** [Math.floor], on exact rationals. *)
Definition Math_floor (q : Q) : Z := Qfloor q.

(** [Math.round(n / d)] for integers [n] and [d > 0]: the nearest integer,
    halves going up. *)
Definition Math_round_div (n d : Z) : Z := (2 * n + d) / (2 * d).

(** The string a template literal or [Array.prototype.join] produces for an
    integer-valued number: decimal digits, with a leading minus sign for a
    negative one (JavaScript switches to exponent notation from 1e21 on,
    far above any clock reading or speed). *)
Definition string_of_number (z : Z) : string :=
  NilEmpty.string_of_int (Z.to_int z).

(** [xs.join(sep)] on an array of strings. *)
Definition join (sep : string) (xs : list string) : string :=
  String.concat sep xs.

(** [xs.slice(-n)]: the last [n] elements, all of them when there are fewer. *)
Definition slice_last {A} (n : nat) (xs : list A) : list A :=
  drop (length xs - n) xs.

(** [xs.slice(0, n)]. *)
Definition slice_first {A} (n : nat) (xs : list A) : list A :=
  take n xs.

(** ** types/detection.ts *)

Inductive VehicleType : Type := car | truck | motorcycle | bus.

Definition VehicleType_name (t : VehicleType) : string :=
  match t with
  | car => "car"
  | truck => "truck"
  | motorcycle => "motorcycle"
  | bus => "bus"
  end.

Record BBox : Type := mkBBox {
  bbox_x : Q;
  bbox_y : Q;
  bbox_width : Q;
  bbox_height : Q
}.

Record DetectedVehicle : Type := mkDetectedVehicle {
  id : string;
  type : VehicleType;
  speed : Z;
  isOverspeed : bool;
  confidence : Q;
  bbox : BBox;
  timestamp : Z;            (* a [Date], as its millisecond value *)
  lane : option Z
}.

Record SpeedLog : Type := mkSpeedLog {
  log_id : string;
  log_vehicleId : string;
  log_vehicleType : string;
  log_speed : Z;
  log_speedLimit : Z;
  log_isOverspeed : bool;
  log_timestamp : Z;
  log_snapshotUrl : option string;
  log_lane : option Z
}.

Record SystemStats : Type := mkSystemStats {
  totalVehicles : Z;
  overspeedCount : Z;
  averageSpeed : Z;
  maxSpeedToday : Z;
  detectionRate : Q;
  uptime : string
}.

Record CameraConfig : Type := mkCameraConfig {
  cam_id : string;
  cam_name : string;
  cam_location : string;
  speedLimit : Z;
  isActive : bool;
  resolution : string;
  fps : Z
}.

Record LocationData : Type := mkLocationData {
  city : string;
  region : string;
  country : string;
  latitude : Q;
  longitude : Q;
  public_ip : string;
  is_auto_detected : bool;
  formatted : string
}.

Inductive ConnectionStatus : Type :=
  connected | connecting | disconnected | error.

Definition ConnectionStatus_eqb (a b : ConnectionStatus) : bool :=
  match a, b with
  | connected, connected | connecting, connecting
  | disconnected, disconnected | error, error => true
  | _, _ => false
  end.

(** ** hooks/useSpeedDetection.ts: the simulated detector *)

Definition vehicleTypes : list VehicleType := [car; truck; motorcycle; bus].

(** What one call of [generateRandomVehicle] reads from its environment, in
    the order of the calls. [id_suffix] is the value of
    [Math.random().toString(36).substr(2, 9)]. *)
Record VehicleDraws : Type := mkVehicleDraws {
  r_speed : Random;
  r_type : Random;
  now_id : Z;
  id_suffix : string;
  r_confidence : Random;
  r_bbox_x : Random;
  r_bbox_y : Random;
  r_bbox_width : Random;
  r_bbox_height : Random;
  now_timestamp : Z
}.

(** [vehicleTypes[i]] is read with [nth]; its default is never used, the
    index being below the length of the array for every draw (lemma
    [type_index_in_range]). *)
Definition generateRandomVehicle (limit : Z) (d : VehicleDraws)
  : DetectedVehicle :=
  let speed := Math_floor (rval (r_speed d) * 80) + 40 in
  let type :=
    nth (Z.to_nat
           (Math_floor
              (rval (r_type d) * inject_Z (Z.of_nat (length vehicleTypes)))))
        vehicleTypes car in
  {| id := "v_" +:+ string_of_number (now_id d) +:+ "_" +:+ id_suffix d;
     type := type;
     speed := speed;
     isOverspeed := speed >? limit;
     confidence := (85 # 100) + rval (r_confidence d) * (14 # 100);
     bbox := {| bbox_x := 20 + rval (r_bbox_x d) * 50;
                bbox_y := 30 + rval (r_bbox_y d) * 30;
                bbox_width := 15 + rval (r_bbox_width d) * 10;
                bbox_height := 20 + rval (r_bbox_height d) * 10 |};
     timestamp := now_timestamp d;
     lane := None |}.

(** ** components/dashboard/SpeedGauge.tsx *)

Module SpeedGauge.

Definition percentage (currentSpeed maxSpeed : Z) : Q :=
  Qmin ((inject_Z currentSpeed / inject_Z maxSpeed) * 100) 100.

Definition isOverspeed (currentSpeed limit : Z) : bool :=
  currentSpeed >? limit.

Definition rotation (currentSpeed maxSpeed : Z) : Q :=
  - (135) + (percentage currentSpeed maxSpeed / 100) * 270.

End SpeedGauge.

(** ** hooks/useSpeedDetection.ts: the hook's state *)

Record State : Type := mkState {
  connectionStatus : ConnectionStatus;
  isPlaying : bool;
  vehicles : list DetectedVehicle;
  logs : list SpeedLog;
  locationData : option LocationData;
  isLocationLoading : bool;
  stats : SystemStats;
  config : CameraConfig
}.

(** The arguments of the [useState] calls. *)
Definition initialStats : SystemStats :=
  {| totalVehicles := 0;
     overspeedCount := 0;
     averageSpeed := 0;
     maxSpeedToday := 0;
     detectionRate := 985 # 10;
     uptime := "24h 15m" |}.

Definition initialConfig : CameraConfig :=
  {| cam_id := "cam_001";
     cam_name := "Camera 1";
     cam_location := "Detecting location...";
     speedLimit := 80;
     isActive := true;
     resolution := "1920x1080";
     fps := 30 |}.

Definition initialState : State :=
  {| connectionStatus := connecting;
     isPlaying := true;
     vehicles := [];
     logs := [];
     locationData := None;
     isLocationLoading := true;
     stats := initialStats;
     config := initialConfig |}.

(** Setters: one per [useState] cell. *)
Definition setConnectionStatus (c : ConnectionStatus) (s : State) : State :=
  mkState c (isPlaying s) (vehicles s) (logs s) (locationData s)
          (isLocationLoading s) (stats s) (config s).

Definition setIsPlaying (b : bool) (s : State) : State :=
  mkState (connectionStatus s) b (vehicles s) (logs s) (locationData s)
          (isLocationLoading s) (stats s) (config s).

Definition setVehicles (v : list DetectedVehicle) (s : State) : State :=
  mkState (connectionStatus s) (isPlaying s) v (logs s) (locationData s)
          (isLocationLoading s) (stats s) (config s).

Definition setLogs (l : list SpeedLog) (s : State) : State :=
  mkState (connectionStatus s) (isPlaying s) (vehicles s) l (locationData s)
          (isLocationLoading s) (stats s) (config s).

Definition setLocationData (l : option LocationData) (s : State) : State :=
  mkState (connectionStatus s) (isPlaying s) (vehicles s) (logs s) l
          (isLocationLoading s) (stats s) (config s).

Definition setIsLocationLoading (b : bool) (s : State) : State :=
  mkState (connectionStatus s) (isPlaying s) (vehicles s) (logs s)
          (locationData s) b (stats s) (config s).

Definition setStats (st : SystemStats) (s : State) : State :=
  mkState (connectionStatus s) (isPlaying s) (vehicles s) (logs s)
          (locationData s) (isLocationLoading s) st (config s).

Definition setConfig (c : CameraConfig) (s : State) : State :=
  mkState (connectionStatus s) (isPlaying s) (vehicles s) (logs s)
          (locationData s) (isLocationLoading s) (stats s) c.

(** [{ ...prev, location: l }] *)
Definition withLocation (l : string) (c : CameraConfig) : CameraConfig :=
  mkCameraConfig (cam_id c) (cam_name c) l (speedLimit c) (isActive c)
                 (resolution c) (fps c).

(** [{ ...prev, is_auto_detected: false }] *)
Definition manualOverride (l : LocationData) : LocationData :=
  mkLocationData (city l) (region l) (country l) (latitude l) (longitude l)
                 (public_ip l) false (formatted l).

(** ** The interval callback *)

(** What one firing of the interval reads from its environment: the draw
    that decides whether a vehicle appears, the draws of
    [generateRandomVehicle], the clock reading of the retention filter (one
    instant for the whole filter pass) and the one of the log id. *)
Record TickDraws : Type := mkTickDraws {
  r_gate : Random;
  vehicle_draws : VehicleDraws;
  now_filter : Z;
  now_log : Z
}.

(** The log entry built for a freshly generated vehicle. *)
Definition makeLog (limit : Z) (now : Z) (newVehicle : DetectedVehicle)
  : SpeedLog :=
  {| log_id := "log_" +:+ string_of_number now;
     log_vehicleId := id newVehicle;
     log_vehicleType := VehicleType_name (type newVehicle);
     log_speed := speed newVehicle;
     log_speedLimit := limit;
     log_isOverspeed := isOverspeed newVehicle;
     log_timestamp := timestamp newVehicle;
     log_snapshotUrl :=
       if isOverspeed newVehicle
       then Some ("/snapshots/" +:+ id newVehicle +:+ ".jpg")
       else None;
     log_lane := None |}.

(** The updater passed to [setVehicles]. *)
Definition updateVehicles (now : Z) (newVehicle : DetectedVehicle)
    (prev : list DetectedVehicle) : list DetectedVehicle :=
  let updated :=
    (filter (fun v => now - timestamp v < 3000) prev ++ [newVehicle])%list in
  slice_last 5 updated.

(** The updater passed to [setLogs]. *)
Definition updateLogs (log : SpeedLog) (prev : list SpeedLog)
  : list SpeedLog :=
  slice_first 50 (log :: prev).

(** The updater passed to [setStats]. *)
Definition updateStats (newVehicle : DetectedVehicle) (prev : SystemStats)
  : SystemStats :=
  {| totalVehicles := totalVehicles prev + 1;
     overspeedCount :=
       overspeedCount prev + (if isOverspeed newVehicle then 1 else 0);
     averageSpeed :=
       Math_round_div
         (averageSpeed prev * totalVehicles prev + speed newVehicle)
         (totalVehicles prev + 1);
     maxSpeedToday := Z.max (maxSpeedToday prev) (speed newVehicle);
     detectionRate := detectionRate prev;
     uptime := uptime prev |}.

(** The body of the [if (Math.random() > 0.3)] branch. *)
Definition detect (d : TickDraws) (s : State) : State :=
  let newVehicle := generateRandomVehicle (speedLimit (config s))
                                          (vehicle_draws d) in
  let log := makeLog (speedLimit (config s)) (now_log d) newVehicle in
  setStats (updateStats newVehicle (stats s))
    (setLogs (updateLogs log (logs s))
       (setVehicles (updateVehicles (now_filter d) newVehicle (vehicles s))
          s)).

Definition gate_open (d : TickDraws) : bool :=
  negb (Qle_bool (rval (r_gate d)) (3 # 10)).

(** One firing of the interval. *)
Definition intervalCallback (d : TickDraws) (s : State) : State :=
  if gate_open d then detect d s else s.

(** The interval only exists while the effect's guard
    [isPlaying && connectionStatus === 'connected'] lets it be installed;
    the effect is re-run when [config.speedLimit] changes, so the callback
    always sees the limit of the current state. *)
Definition interval_installed (s : State) : bool :=
  isPlaying s && ConnectionStatus_eqb (connectionStatus s) connected.

Definition tick (d : TickDraws) (s : State) : State :=
  if interval_installed s then intervalCallback d s else s.

(** ** The other callbacks *)

Definition togglePlay (s : State) : State :=
  setIsPlaying (negb (isPlaying s)) s.

Definition updateConfig (newConfig : CameraConfig) (s : State) : State :=
  let s1 := setConfig newConfig s in
  match locationData s with
  | Some l =>
      if negb (String.eqb (cam_location newConfig) (formatted l))
      then setLocationData (Some (manualOverride l)) s1
      else s1
  | None => s1
  end.

Definition getCurrentSpeed (s : State) : Z :=
  if (length (vehicles s) =? 0)%nat then 0
  else match vehicles s !! (length (vehicles s) - 1)%nat with
       | Some v => speed v
       | None => 0   (* not reached: the index is in range *)
       end.

(** The value [fetchAutoLocation] returns from its [catch] branch. *)
Definition fallbackLocation : LocationData :=
  {| city := "";
     region := "";
     country := "";
     latitude := 0;
     longitude := 0;
     public_ip := "";
     is_auto_detected := false;
     formatted := "Location not detected — enter manually" |}.

(** The continuation of [detectLocation] after [fetchAutoLocation]
    resolved with [location]; before the call it sets [isLocationLoading]
    to [true], which it is from the start. *)
Definition detectLocation_done (location : LocationData) (s : State)
  : State :=
  let s1 := setLocationData (Some location) s in
  let s2 :=
    if is_auto_detected location
    then setConfig (withLocation (formatted location) (config s1)) s1
    else setConfig
           (withLocation "Location not detected — enter manually"
                         (config s1)) s1 in
  setIsLocationLoading false s2.

Definition refreshLocation_start (s : State) : State :=
  setIsLocationLoading true s.

Definition refreshLocation_done (location : LocationData) (s : State)
  : State :=
  let s1 := setLocationData (Some location) s in
  let s2 :=
    if is_auto_detected location
    then setConfig (withLocation (formatted location) (config s1)) s1
    else s1 in
  setIsLocationLoading false s2.

(** ** components/dashboard/SettingsPanel.tsx

    The panel edits a copy of the configuration and hands it to [onSave],
    which the page binds to [updateConfig]. [value] is what
    [Number(e.target.value)] evaluates to. *)

Module SettingsPanel.

Record PanelState : Type := mkPanelState {
  localConfig : CameraConfig;
  isLocationOverridden : bool
}.

(** [useState(config)] and [useState(false)]. *)
Definition initialPanel (config : CameraConfig) : PanelState :=
  {| localConfig := config; isLocationOverridden := false |}.

Definition setName (value : string) (p : PanelState) : PanelState :=
  let c := localConfig p in
  mkPanelState
    (mkCameraConfig (cam_id c) value (cam_location c) (speedLimit c)
                    (isActive c) (resolution c) (fps c))
    (isLocationOverridden p).

Definition handleLocationChange (value : string) (p : PanelState)
  : PanelState :=
  mkPanelState (withLocation value (localConfig p)) true.

Definition setResolution (value : string) (p : PanelState) : PanelState :=
  let c := localConfig p in
  mkPanelState
    (mkCameraConfig (cam_id c) (cam_name c) (cam_location c) (speedLimit c)
                    (isActive c) value (fps c))
    (isLocationOverridden p).

Definition setFps (value : Z) (p : PanelState) : PanelState :=
  let c := localConfig p in
  mkPanelState
    (mkCameraConfig (cam_id c) (cam_name c) (cam_location c) (speedLimit c)
                    (isActive c) (resolution c) value)
    (isLocationOverridden p).

Definition setSpeedLimit (value : Z) (p : PanelState) : PanelState :=
  let c := localConfig p in
  mkPanelState
    (mkCameraConfig (cam_id c) (cam_name c) (cam_location c) value
                    (isActive c) (resolution c) (fps c))
    (isLocationOverridden p).

(** The Reset button. *)
Definition reset (config : CameraConfig) (p : PanelState) : PanelState :=
  mkPanelState config false.

(** [handleSave]: [onSave(localConfig)], as far as the hook is concerned. *)
Definition handleSave (p : PanelState) (s : State) : State :=
  updateConfig (localConfig p) s.

End SettingsPanel.

(** ** Runs of the hook *)

Inductive Event : Type :=
  | LocationDetected (location : LocationData)
  | ConnectionTimer
  | IntervalTick (d : TickDraws)
  | TogglePlay
  | UpdateConfig (newConfig : CameraConfig)
  | RefreshLocationStart
  | RefreshLocationDone (location : LocationData).

Definition step (s : State) (e : Event) : State :=
  match e with
  | LocationDetected l => detectLocation_done l s
  | ConnectionTimer => setConnectionStatus connected s
  | IntervalTick d => tick d s
  | TogglePlay => togglePlay s
  | UpdateConfig c => updateConfig c s
  | RefreshLocationStart => refreshLocation_start s
  | RefreshLocationDone l => refreshLocation_done l s
  end.

Definition run (s : State) (es : list Event) : State :=
  fold_left step es s.

Definition is_tick (e : Event) : bool :=
  match e with IntervalTick _ => true | _ => false end.

(** The log entry an event creates, if it creates one. *)
Definition emit (s : State) (e : Event) : list SpeedLog :=
  match e with
  | IntervalTick d =>
      if interval_installed s && gate_open d
      then [makeLog (speedLimit (config s)) (now_log d)
              (generateRandomVehicle (speedLimit (config s))
                                     (vehicle_draws d))]
      else []
  | _ => []
  end.

(** The log entries a run creates, oldest first. *)
Fixpoint emitted (s : State) (es : list Event) : list SpeedLog :=
  match es with
  | [] => []
  | e :: es' => (emit s e ++ emitted (step s e) es')%list
  end.

(** ** The CSV export *)

Section CsvExport.

(** [new Date(t).toLocaleString()] and
    [new Date(t).toISOString().split('T')[0]] depend on the locale and the
    calendar; the export is modelled for any two such renderings. *)
Variable toLocaleString : Z -> string.
Variable toISODate : Z -> string.

Definition headers : list string :=
  ["Time"; "Vehicle Type"; "Speed (km/h)"; "Speed Limit"; "Status"].

(** One element of [rows]; the two numbers are shown as [join] prints
    them. *)
Definition row (log : SpeedLog) : list string :=
  [ toLocaleString (log_timestamp log);
    log_vehicleType log;
    string_of_number (log_speed log);
    string_of_number (log_speedLimit log);
    if log_isOverspeed log then "Overspeed" else "Normal" ].

Definition rows (l : list SpeedLog) : list (list string) := map row l.

Definition csvLines (l : list SpeedLog) : list string :=
  join "," headers :: map (join ",") (rows l).

Definition newline : string := String (ascii_of_nat 10) EmptyString.

Definition csvContent (l : list SpeedLog) : string :=
  join newline (csvLines l).

(** What [exportCSV] hands to the browser: the blob's content and type and
    the name of the download. *)
Record Download : Type := mkDownload {
  blob_content : string;
  blob_type : string;
  download_name : string
}.

Definition exportCSV (now : Z) (s : State) : Download :=
  {| blob_content := csvContent (logs s);
     blob_type := "text/csv";
     download_name := "speed_log_" +:+ toISODate now +:+ ".csv" |}.

End CsvExport.

(** ** components/dashboard/Header.tsx *)

Module Header.

(** [statusConfig[connectionStatus].text] *)
Definition status_text (c : ConnectionStatus) : string :=
  match c with
  | connected => "Connected"
  | connecting => "Connecting..."
  | disconnected => "Disconnected"
  | error => "Error"
  end.

End Header.

(** ** components/dashboard/VideoFeed.tsx *)

Module VideoFeed.

(** [vehicles.some(v => v.isOverspeed)]: whether the alert banner and the
    red frame are shown. *)
Definition hasOverspeed (vs : list DetectedVehicle) : bool :=
  existsb isOverspeed vs.

End VideoFeed.

(** ** components/dashboard/SpeedLogTable.tsx *)

Module SpeedLogTable.

(** [log.snapshotUrl && <button/>]: the button is rendered for a defined,
    non-empty reference. *)
Definition showsSnapshot (log : SpeedLog) : bool :=
  match log_snapshotUrl log with
  | Some u => negb (String.eqb u "")
  | None => false
  end.

End SpeedLogTable.

(** ** components/dashboard/LocationMap.tsx *)

Module LocationMap.

Record Example : Type := mkExample {
  ex_name : string;
  ex_lat : Q;
  ex_lon : Q;
  ex_city : string;
  ex_region : string;
  ex_country : string
}.

Definition EXAMPLE_LOCATIONS : list Example :=
  [ mkExample "New York, USA" (407128 # 10000) (- (740060 # 10000))
              "New York" "NY" "United States";
    mkExample "London, UK" (515074 # 10000) (- (1278 # 10000))
              "London" "England" "United Kingdom";
    mkExample "Tokyo, Japan" (356762 # 10000) (1396503 # 10000)
              "Tokyo" "Kanto" "Japan";
    mkExample "Sydney, Australia" (- (338688 # 10000)) (1512093 # 10000)
              "Sydney" "NSW" "Australia";
    mkExample "Dubai, UAE" (252048 # 10000) (552708 # 10000)
              "Dubai" "Dubai" "UAE";
    mkExample "Singapore" (13521 # 10000) (1038198 # 10000)
              "Singapore" "Central" "Singapore" ].

(** The shape of [currentLocation]: what the map reads of a location. *)
Record Place : Type := mkPlace {
  place_latitude : Q;
  place_longitude : Q;
  place_city : string;
  place_region : string;
  place_country : string
}.

Definition currentLocation (selectedExample : option Example)
    (locationData : option LocationData) : option Place :=
  match selectedExample with
  | Some ex =>
      Some (mkPlace (ex_lat ex) (ex_lon ex) (ex_city ex) (ex_region ex)
                    (ex_country ex))
  | None =>
      match locationData with
      | Some l =>
          Some (mkPlace (latitude l) (longitude l) (city l) (region l)
                        (country l))
      | None => None
      end
  end.

(** [!x] for a number: true of zero. *)
Definition falsy (q : Q) : bool := Qeq_bool q 0.

(** Which of its three renderings the component returns. *)
Inductive View : Type :=
  | Loading
  | Placeholder
  | Map (center : Q * Q).

Definition view (isLoading : bool) (selectedExample : option Example)
    (locationData : option LocationData) : View :=
  if isLoading then Loading
  else
    match currentLocation selectedExample locationData with
    | None => Placeholder
    | Some p =>
        if falsy (place_latitude p) || falsy (place_longitude p)
        then Placeholder
        else Map (place_latitude p, place_longitude p)
    end.

End LocationMap.

(** ** hooks/useSpeedDetection.ts: [fetchAutoLocation] *)

(** The body of the answer of ipapi.co, as far as it is read. A field is
    [None] when it is missing. *)
Record IpapiData : Type := mkIpapiData {
  data_error : bool;
  data_city : option string;
  data_region : option string;
  data_country_name : option string;
  data_latitude : option Q;
  data_longitude : option Q;
  data_ip : option string
}.

(** How the request ends: [fetch] rejects, or a response arrives, [ok] or
    not, whose body parses ([Some]) or makes [response.json()] throw
    ([None]). *)
Inductive FetchOutcome : Type :=
  | NetworkError
  | HttpResponse (ok : bool) (body : option IpapiData).

(** [x || d] on strings and on numbers. *)
Definition string_or (x : option string) (d : string) : string :=
  match x with
  | Some v => if String.eqb v "" then d else v
  | None => d
  end.

Definition number_or (x : option Q) (d : Q) : Q :=
  match x with
  | Some v => if Qeq_bool v 0 then d else v
  | None => d
  end.

Section FetchAutoLocation.

(** [x.toFixed(4)] and [s.trim()], for any rendering of numbers and any
    trimming. *)
Variable toFixed4 : Q -> string.
Variable trim : string -> string.

Definition fetchAutoLocation (o : FetchOutcome) : LocationData :=
  match o with
  | HttpResponse true (Some data) =>
      if data_error data then fallbackLocation
      else
        {| city := string_or (data_city data) "Unknown";
           region := string_or (data_region data) "";
           country := string_or (data_country_name data) "";
           latitude := number_or (data_latitude data) 0;
           longitude := number_or (data_longitude data) 0;
           public_ip := string_or (data_ip data) "";
           is_auto_detected := true;
           formatted :=
             trim (string_or (data_city data) "Unknown" +:+ ", "
                   +:+ string_or (data_region data) "" +:+ ", "
                   +:+ string_or (data_country_name data) ""
                   +:+ " (Lat: "
                   +:+ toFixed4 (number_or (data_latitude data) 0)
                   +:+ ", Lon: "
                   +:+ toFixed4 (number_or (data_longitude data) 0)
                   +:+ ")") |}
  | _ => fallbackLocation
  end.

End FetchAutoLocation.

(** ** The page component [Index]

    The page holds the hook's state and, in the settings panel it always
    mounts, the panel's own state; the panel's copy of the configuration
    is taken by [useState(config)] when the page is first rendered. *)

Module Index.

Record Page : Type := mkPage {
  hook : State;
  panel : SettingsPanel.PanelState;
  isSettingsOpen : bool
}.

Definition initialPage : Page :=
  {| hook := initialState;
     panel := SettingsPanel.initialPanel (config initialState);
     isSettingsOpen := false |}.

Inductive PageEvent : Type :=
  | HookEvent (e : Event)
  | OpenSettings
  | CloseSettings
  | EditName (value : string)
  | EditLocation (value : string)
  | EditResolution (value : string)
  | EditFps (value : Z)
  | EditSpeedLimit (value : Z)
  | ClickRefresh
  | ClickReset
  | ClickSave.

Definition edit (f : SettingsPanel.PanelState -> SettingsPanel.PanelState)
    (p : Page) : Page :=
  mkPage (hook p) (f (panel p)) (isSettingsOpen p).

(** The events that reach the hook without the panel: timers, the
    interval, the answers to fetches and the play button. [updateConfig]
    and [refreshLocation] are only ever called from the panel. *)
Definition from_outside (h : Event) : bool :=
  match h with
  | UpdateConfig _ | RefreshLocationStart => false
  | _ => true
  end.

(** The panel's controls exist only while it is open, and its refresh
    button is disabled while a location is being fetched. *)
Definition page_step (p : Page) (e : PageEvent) : Page :=
  match e with
  | HookEvent h =>
      if from_outside h
      then mkPage (step (hook p) h) (panel p) (isSettingsOpen p)
      else p
  | OpenSettings => mkPage (hook p) (panel p) true
  | _ =>
      if isSettingsOpen p then
        match e with
        | CloseSettings => mkPage (hook p) (panel p) false
        | EditName v => edit (SettingsPanel.setName v) p
        | EditLocation v => edit (SettingsPanel.handleLocationChange v) p
        | EditResolution v => edit (SettingsPanel.setResolution v) p
        | EditFps v => edit (SettingsPanel.setFps v) p
        | EditSpeedLimit v => edit (SettingsPanel.setSpeedLimit v) p
        | ClickRefresh =>
            if isLocationLoading (hook p) then p
            else
              mkPage (refreshLocation_start (hook p))
                     (SettingsPanel.mkPanelState
                        (SettingsPanel.localConfig (panel p)) false)
                     true
        | ClickReset =>
            edit (SettingsPanel.reset (config (hook p))) p
        | ClickSave =>
            mkPage (SettingsPanel.handleSave (panel p) (hook p)) (panel p)
                   false
        | _ => p
        end
      else p
  end.

Definition run_page (p : Page) (es : list PageEvent) : Page :=
  fold_left page_step es p.

(** The variant of the "Max Speed Today" card: [true] for ['warning']. *)
Definition maxSpeedWarning (s : State) : bool :=
  maxSpeedToday (stats s) >? speedLimit (config s).

(** The props handed to the gauge. *)
Definition gaugeMaxSpeed : Z := 150.

(** The panel's badge: [locationData?.is_auto_detected &&
    !isLocationOverridden]. *)
Definition showAutoDetectedBadge (p : Page) : bool :=
  match locationData (hook p) with
  | Some l => is_auto_detected l
  | None => false
  end && negb (SettingsPanel.isLocationOverridden (panel p)).

End Index.

(** ** Sample inputs *)

Definition half : Random := mkRandom (1 # 2) eq_refl.
Definition r0 : Random := mkRandom 0 eq_refl.
Definition r9 : Random := mkRandom (9 # 10) eq_refl.

(** A vehicle at 112 km/h, created at clock reading [now] with id suffix
    [sfx]. *)
Definition fast_vehicle (now : Z) (sfx : string) : VehicleDraws :=
  mkVehicleDraws r9 r0 now sfx half half half half half now.

(** A vehicle at 40 km/h. *)
Definition slow_vehicle (now : Z) (sfx : string) : VehicleDraws :=
  mkVehicleDraws r0 r0 now sfx half half half half half now.

Definition fast_tick (now : Z) (sfx : string) : TickDraws :=
  mkTickDraws half (fast_vehicle now sfx) now now.

Definition slow_tick (now : Z) (sfx : string) : TickDraws :=
  mkTickDraws half (slow_vehicle now sfx) now now.

Definition quiet_tick (now : Z) : TickDraws :=
  mkTickDraws r0 (slow_vehicle now "") now now.

(** ** Notions of the specification

    The definitions below do not come from the code: they write down, in
    the specification's words, what it asks for, so that the code can be
    compared with it. *)

(** The declared valid ranges of the calibration: a positive speed limit
    and a positive frame rate. *)
Definition spec_valid_config (c : CameraConfig) : bool :=
  (0 <? speedLimit c)%Z && (0 <? fps c)%Z.

(** The persisted record of the specification: timestamp, vehicle type,
    speed, speed limit, overspeed flag, optional snapshot reference. *)
Definition spec_record (toLocaleString : Z -> string) (log : SpeedLog)
  : list string :=
  [ toLocaleString (log_timestamp log);
    log_vehicleType log;
    string_of_number (log_speed log);
    string_of_number (log_speedLimit log);
    if log_isOverspeed log then "Overspeed" else "Normal";
    match log_snapshotUrl log with Some u => u | None => "" end ].


(** Identifiers in creation order are monotonically assigned: each one is
    greater, as JavaScript compares strings, than the one before it. *)
Fixpoint spec_ids_increasing (ids : list string) : bool :=
  match ids with
  | a :: (b :: _) as rest => String.ltb a b && spec_ids_increasing rest
  | _ => true
  end.

(** A detection, as the specification has it: what the detector reports
    about one object, without identity or time. *)
Record Detection : Type := mkDetection {
  det_classLabel : VehicleType;
  det_speed : Z;
  det_confidence : Q;
  det_bbox : BBox
}.

(** The detection one firing of the interval stands for, if any. *)
Definition detection_of (d : TickDraws) : option Detection :=
  if gate_open d then
    let v := generateRandomVehicle 0 (vehicle_draws d) in
    Some (mkDetection (type v) (speed v) (confidence v) (bbox v))
  else None.

(** Two events bring the same detections: interval firings that stand for
    the same detection, or the same event otherwise. *)
Definition same_detections (e1 e2 : Event) : Prop :=
  match e1, e2 with
  | IntervalTick d1, IntervalTick d2 => detection_of d1 = detection_of d2
  | _, _ => e1 = e2
  end.

(** Two events bring the same detections at the same clock readings and
    with the same id suffix. *)
Definition same_inputs (e1 e2 : Event) : Prop :=
  match e1, e2 with
  | IntervalTick d1, IntervalTick d2 =>
      detection_of d1 = detection_of d2 /\
      (gate_open d1 = true ->
       now_id (vehicle_draws d1) = now_id (vehicle_draws d2) /\
       id_suffix (vehicle_draws d1) = id_suffix (vehicle_draws d2) /\
       now_timestamp (vehicle_draws d1) = now_timestamp (vehicle_draws d2) /\
       now_filter d1 = now_filter d2 /\
       now_log d1 = now_log d2)
  | _, _ => e1 = e2
  end.

(** What a log entry says about the detection it records. *)
Definition log_detection (e : SpeedLog) : string * Z * Z * bool :=
  (log_vehicleType e, log_speed e, log_speedLimit e, log_isOverspeed e).

(** What the id of a vehicle is made of: the clock reading and the random
    suffix of each interval firing. *)
Definition id_keys (es : list Event) : list (Z * string) :=
  omap (fun e => match e with
                 | IntervalTick d =>
                     Some (now_id (vehicle_draws d),
                           id_suffix (vehicle_draws d))
                 | _ => None
                 end) es.

(** The clock readings that enter vehicle ids, one per interval firing. *)
Definition id_clocks (es : list Event) : list Z :=
  omap (fun e => match e with
                 | IntervalTick d => Some (now_id (vehicle_draws d))
                 | _ => None
                 end) es.

(** The clock has advanced from reading [a] to reading [b] without
    gaining a digit. *)
Definition later_same_width (a b : Z) : Prop :=
  0 <= a < b /\
  String.length (string_of_number a) = String.length (string_of_number b).

(** [a < b] on strings, as JavaScript compares them. *)
Definition id_lt (a b : string) : Prop := String.ltb a b = true.

(** The character [c] does not occur in [s]. *)
Fixpoint free_of (c : ascii) (s : string) : bool :=
  match s with
  | EmptyString => true
  | String a s' => negb (Ascii.eqb a c) && free_of c s'
  end.


(** [{ ...log, snapshotUrl: u }] *)
Definition withSnapshot (u : option string) (e : SpeedLog) : SpeedLog :=
  mkSpeedLog (log_id e) (log_vehicleId e) (log_vehicleType e) (log_speed e)
             (log_speedLimit e) (log_isOverspeed e) (log_timestamp e) u
             (log_lane e).

(** Two states report the same detections: they agree on everything but
    the identities and times of vehicles and log entries. *)
Definition same_report (s1 s2 : State) : Prop :=
  connectionStatus s1 = connectionStatus s2 /\
  isPlaying s1 = isPlaying s2 /\
  map log_detection (logs s1) = map log_detection (logs s2) /\
  locationData s1 = locationData s2 /\
  isLocationLoading s1 = isLocationLoading s2 /\
  stats s1 = stats s2 /\
  config s1 = config s2.

(** The number of overspeed entries of a list of log entries. *)
Definition count_overspeed (l : list SpeedLog) : Z :=
  Z.of_nat (length (filter (fun e => log_isOverspeed e = true) l)).

(** More sample inputs. *)
Definition malformedConfig : CameraConfig :=
  {| cam_id := "cam_001";
     cam_name := "Camera 1";
     cam_location := "Detecting location...";
     speedLimit := -5;
     isActive := true;
     resolution := "1920x1080";
     fps := 0 |}.

Definition sample_locale (t : Z) : string := string_of_number t +:+ " ms".

Definition sample_log (snapshot : option string) : SpeedLog :=
  {| log_id := "log_1000";
     log_vehicleId := "v_1000_a";
     log_vehicleType := "car";
     log_speed := 112;
     log_speedLimit := 80;
     log_isOverspeed := true;
     log_timestamp := 1000;
     log_snapshotUrl := snapshot;
     log_lane := None |}.

(** A second set of draws for the vehicle of [fast_tick]: the same speed,
    type, confidence and box from other random numbers. *)
Definition r91 : Random := mkRandom (91 # 100) eq_refl.
Definition r01 : Random := mkRandom (1 # 10) eq_refl.

Definition fast_tick' (now : Z) (sfx : string) : TickDraws :=
  mkTickDraws r9
    (mkVehicleDraws r91 r01 now sfx half half half half half now) now now.

(** Sample runs: two fast vehicles one after the other; the same clock
    reading and suffix drawn twice; the clock set back between two
    firings; the clock passing from three to four digits. *)
Definition run_two_fast : list Event :=
  [ConnectionTimer; IntervalTick (fast_tick 1000 "a");
   IntervalTick (fast_tick 2500 "b")].

Definition run_same_draws : list Event :=
  [ConnectionTimer; IntervalTick (fast_tick 1000 "a");
   IntervalTick (fast_tick 1000 "a")].

Definition run_clock_back : list Event :=
  [ConnectionTimer; IntervalTick (fast_tick 2000 "a");
   IntervalTick (fast_tick 1000 "b")].

Definition run_more_digits : list Event :=
  [ConnectionTimer; IntervalTick (fast_tick 999 "a");
   IntervalTick (fast_tick 1000 "a")].

Definition run_other_draws : list Event :=
  [ConnectionTimer; IntervalTick (fast_tick' 1000 "a");
   IntervalTick (fast_tick' 2500 "b")].

Definition run_other_clock : list Event :=
  [ConnectionTimer; IntervalTick (fast_tick 1000 "a");
   IntervalTick (fast_tick 9000 "c")].

(** ** Auxiliary notions for the properties of the remaining code *)

Definition is_timer (e : Event) : bool :=
  match e with ConnectionTimer => true | _ => false end.

(** The number of occurrences of the character [c] in [s]. *)
Fixpoint count_char (c : ascii) (s : string) : nat :=
  match s with
  | EmptyString => 0%nat
  | String a s' => ((if Ascii.eqb a c then 1 else 0) + count_char c s')%nat
  end.

(** The clock readings that enter log ids, one per interval firing. *)
Definition log_clocks (es : list Event) : list Z :=
  omap (fun e => match e with
                 | IntervalTick d => Some (now_log d)
                 | _ => None
                 end) es.


(** A location as ipapi.co reports it. *)
Definition sample_data : IpapiData :=
  mkIpapiData false (Some "Hyderabad") (Some "Telangana") (Some "India")
              (Some (17385 # 1000)) (Some (78486 # 1000)) (Some "203.0.113.7").

Definition sample_location : LocationData :=
  mkLocationData "Hyderabad" "Telangana" "India" (17385 # 1000)
                 (78486 # 1000) "203.0.113.7" true
                 "Hyderabad, Telangana, India (Lat: 17.3850, Lon: 78.4860)".

(** * Properties *)

(** ** What each callback touches *)

Lemma detect_vehicles d s :
  vehicles (detect d s) =
  updateVehicles (now_filter d)
    (generateRandomVehicle (speedLimit (config s)) (vehicle_draws d))
    (vehicles s).
Proof. reflexivity. Qed.

Lemma detect_logs d s :
  logs (detect d s) =
  updateLogs
    (makeLog (speedLimit (config s)) (now_log d)
       (generateRandomVehicle (speedLimit (config s)) (vehicle_draws d)))
    (logs s).
Proof. reflexivity. Qed.

Lemma detect_stats d s :
  stats (detect d s) =
  updateStats (generateRandomVehicle (speedLimit (config s)) (vehicle_draws d))
    (stats s).
Proof. reflexivity. Qed.

Lemma tick_cases d s :
  (interval_installed s && gate_open d = true /\ tick d s = detect d s) \/
  (interval_installed s && gate_open d = false /\ tick d s = s).
Proof.
  unfold tick, intervalCallback.
  destruct (interval_installed s), (gate_open d); simpl; auto.
Qed.

(** [updateConfig] has three outcomes, by the location data at hand; a
    projection of the state reads the same in each. *)
Ltac updateConfig_cases :=
  unfold updateConfig;
  destruct (locationData _) as [?|]; [destruct (negb _)|]; reflexivity.

Lemma updateConfig_logs c s : logs (updateConfig c s) = logs s.
Proof. updateConfig_cases. Qed.

Lemma updateConfig_vehicles c s : vehicles (updateConfig c s) = vehicles s.
Proof. updateConfig_cases. Qed.

Lemma updateConfig_stats c s : stats (updateConfig c s) = stats s.
Proof. updateConfig_cases. Qed.

Lemma updateConfig_config c s : config (updateConfig c s) = c.
Proof. updateConfig_cases. Qed.

Lemma updateConfig_playing c s :
  interval_installed (updateConfig c s) = interval_installed s.
Proof. unfold interval_installed. updateConfig_cases. Qed.

(** An event that is not a firing of the interval leaves vehicles, logs and
    statistics alone. *)
Lemma step_other_frame s e :
  is_tick e = false ->
  vehicles (step s e) = vehicles s /\
  logs (step s e) = logs s /\
  stats (step s e) = stats s.
Proof.
  destruct e as [l| |d| |c| |l]; simpl; intros Ht; try discriminate;
    try (repeat split; reflexivity).
  - unfold detectLocation_done. destruct (is_auto_detected l); auto.
  - auto using updateConfig_vehicles, updateConfig_logs, updateConfig_stats.
  - unfold refreshLocation_done. destruct (is_auto_detected l); auto.
Qed.

Lemma run_cons s e es : run s (e :: es) = run (step s e) es.
Proof. reflexivity. Qed.

(** ** The overspeed decision *)

Lemma gtb_true_iff (a b : Z) : (a >? b) = true <-> a > b.
Proof. rewrite Z.gtb_ltb, Z.ltb_lt. lia. Qed.

(** A draw lies in the unit interval, so the generated speed lies between
    40 and 119 and the index into [vehicleTypes] below its length. *)
Lemma Random_range (r : Random) : (0 <= rval r)%Q /\ (rval r < 1)%Q.
Proof.
  pose proof (rval_unit r) as H. unfold in_unit in H.
  apply andb_true_iff in H as [H0 H1].
  apply Qle_bool_iff in H0. apply negb_true_iff in H1. split; [exact H0|].
  apply Qnot_le_lt. intros Hle. apply Qle_bool_iff in Hle. congruence.
Qed.

Lemma floor_scaled_range (r : Random) (n : Z) :
  0 < n -> 0 <= Math_floor (rval r * inject_Z n) < n.
Proof.
  intros Hn. destruct (Random_range r) as [H0 H1]. unfold Math_floor.
  assert (Hq : (inject_Z 0 < inject_Z n)%Q) by (rewrite <- Zlt_Qlt; exact Hn).
  split.
  - change 0 with (Qfloor (inject_Z 0)). apply Qfloor_resp_le.
    apply Qmult_le_0_compat; [exact H0 | now apply Qlt_le_weak].
  - rewrite Zlt_Qlt. eapply Qle_lt_trans; [apply Qfloor_le|].
    apply Qlt_le_trans with (1 * inject_Z n)%Q.
    + now apply Qmult_lt_compat_r.
    + rewrite Qmult_1_l. apply Qle_refl.
Qed.

Lemma speed_range limit d :
  40 <= speed (generateRandomVehicle limit d) <= 119.
Proof.
  cbn [speed generateRandomVehicle].
  pose proof (floor_scaled_range (r_speed d) 80 eq_refl) as H.
  change (inject_Z 80) with 80%Q in H. lia.
Qed.

Lemma type_index_in_range (r : Random) :
  (Z.to_nat (Math_floor (rval r * inject_Z (Z.of_nat (length vehicleTypes))))
   < length vehicleTypes)%nat.
Proof.
  pose proof (floor_scaled_range r (Z.of_nat (length vehicleTypes)) eq_refl).
  lia.
Qed.

(** C1. The overspeed flag of a generated vehicle, of the log entry made
    for it and of the gauge is the strict comparison of the speed with the
    limit: it is set exactly when the speed is greater than the limit, so a
    speed equal to the limit is not overspeed and a speed one above it
    is. *)
Theorem C1_overspeed_is_strict_comparison
    (limit : Z) (d : VehicleDraws) (now currentSpeed : Z) :
  let v := generateRandomVehicle limit d in
  let e := makeLog limit now v in
  (isOverspeed v = true <-> speed v > limit) /\
  (log_isOverspeed e = true <-> log_speed e > log_speedLimit e) /\
  isOverspeed (generateRandomVehicle (speed v) d) = false /\
  isOverspeed (generateRandomVehicle (speed v - 1) d) = true /\
  (SpeedGauge.isOverspeed currentSpeed limit = true <-> currentSpeed > limit) /\
  SpeedGauge.isOverspeed limit limit = false /\
  SpeedGauge.isOverspeed (limit + 1) limit = true.
Proof.
  cbv zeta. unfold SpeedGauge.isOverspeed. simpl.
  repeat split; try apply gtb_true_iff.
  - rewrite Z.gtb_ltb. apply Z.ltb_irrefl.
  - apply gtb_true_iff. lia.
  - rewrite Z.gtb_ltb. apply Z.ltb_irrefl.
  - apply gtb_true_iff. lia.
Qed.

(** ** The gauge's reading *)

Lemma last_slice_last {A} (n : nat) (l : list A) (x : A) :
  (0 < n)%nat -> last (slice_last n (l ++ [x])) = Some x.
Proof.
  intros Hn. unfold slice_last.
  rewrite last_lookup, lookup_drop, length_drop, length_app. simpl.
  replace (length l + 1 - n + pred (length l + 1 - (length l + 1 - n)))%nat
    with (length l + 0)%nat by lia.
  rewrite lookup_app_r by lia.
  replace (length l + 0 - length l)%nat with 0%nat by lia. reflexivity.
Qed.

Lemma getCurrentSpeed_last s :
  getCurrentSpeed s =
  match last (vehicles s) with Some v => speed v | None => 0 end.
Proof.
  unfold getCurrentSpeed. rewrite last_lookup.
  destruct (vehicles s) as [|v vs]; [reflexivity|].
  simpl length. simpl Nat.eqb. cbv iota.
  replace (S (length vs) - 1)%nat with (pred (S (length vs))) by lia.
  reflexivity.
Qed.

(** C8. [getCurrentSpeed] is 0 when the vehicle list is empty and the
    speed of the last vehicle of the list otherwise; after a detection the
    last vehicle is the one just added. *)
Theorem C8_getCurrentSpeed_last_vehicle (s : State) (d : TickDraws) :
  getCurrentSpeed s =
    match last (vehicles s) with Some v => speed v | None => 0 end /\
  getCurrentSpeed (setVehicles [] s) = 0 /\
  (forall vs v, getCurrentSpeed (setVehicles (vs ++ [v]) s) = speed v) /\
  getCurrentSpeed (detect d s) =
    speed (generateRandomVehicle (speedLimit (config s)) (vehicle_draws d)).
Proof.
  repeat split.
  - apply getCurrentSpeed_last.
  - intros vs v. rewrite getCurrentSpeed_last. simpl vehicles.
    now rewrite last_snoc.
  - rewrite getCurrentSpeed_last, detect_vehicles. unfold updateVehicles.
    rewrite last_slice_last by lia. reflexivity.
Qed.

(** ** One step of a run *)

(** Every event either creates no log entry and leaves vehicles, logs and
    statistics as they are, or is a firing of the interval that detects a
    vehicle. *)
Lemma step_cases s e :
  (emit s e = [] /\ vehicles (step s e) = vehicles s /\
   logs (step s e) = logs s /\ stats (step s e) = stats s) \/
  (exists d, e = IntervalTick d /\ step s e = detect d s /\
     emit s e =
       [makeLog (speedLimit (config s)) (now_log d)
          (generateRandomVehicle (speedLimit (config s)) (vehicle_draws d))]).
Proof.
  destruct (is_tick e) eqn:Ht.
  - destruct e as [l| |d| |c| |l]; try discriminate. simpl.
    destruct (tick_cases d s) as [[Hg Hs]|[Hg Hs]]; rewrite Hg, Hs.
    + right. exists d. auto.
    + left. auto.
  - left. split; [now destruct e | now apply step_other_frame].
Qed.

Lemma take_app_take {A} (n : nat) (l k : list A) :
  take n (l ++ take n k) = take n (l ++ k).
Proof.
  rewrite !take_app, take_take. f_equal. f_equal. lia.
Qed.

Lemma updateVehicles_length now v prev :
  (length (updateVehicles now v prev) <= 5)%nat.
Proof.
  unfold updateVehicles, slice_last. rewrite length_drop. lia.
Qed.

Lemma updateLogs_length log prev : (length (updateLogs log prev) <= 50)%nat.
Proof.
  unfold updateLogs, slice_first. rewrite length_take. lia.
Qed.

Lemma step_bounds s e :
  (length (vehicles s) <= 5)%nat -> (length (logs s) <= 50)%nat ->
  (length (vehicles (step s e)) <= 5)%nat /\
  (length (logs (step s e)) <= 50)%nat.
Proof.
  intros Hv Hl.
  destruct (step_cases s e) as [(_ & -> & -> & _)|(d & _ & -> & _)]; [auto|].
  rewrite detect_vehicles, detect_logs.
  auto using updateVehicles_length, updateLogs_length.
Qed.

Lemma run_bounds es : forall s,
  (length (vehicles s) <= 5)%nat -> (length (logs s) <= 50)%nat ->
  (length (vehicles (run s es)) <= 5)%nat /\
  (length (logs (run s es)) <= 50)%nat.
Proof.
  induction es as [|e es IH]; intros s Hv Hl; [now split|].
  rewrite run_cons. destruct (step_bounds s e Hv Hl). now apply IH.
Qed.

(** The log of a run holds the entries created so far, newest first, on top
    of the entries it started with, cut at fifty. *)
Lemma run_logs es : forall s,
  take 50 (logs (run s es)) = take 50 (rev (emitted s es) ++ logs s).
Proof.
  induction es as [|e es IH]; intros s; [reflexivity|].
  rewrite run_cons, IH. simpl emitted. rewrite rev_app_distr, <- app_assoc.
  destruct (step_cases s e) as [(-> & _ & -> & _)|(d & _ & -> & ->)].
  - reflexivity.
  - rewrite detect_logs. unfold updateLogs, slice_first.
    now rewrite take_app_take.
Qed.

Lemma initial_run_logs es :
  logs (run initialState es) = take 50 (rev (emitted initialState es)).
Proof.
  destruct (run_bounds es initialState) as [_ Hl]; [simpl; lia | simpl; lia |].
  rewrite <- (take_ge (logs (run initialState es)) 50) by exact Hl.
  rewrite run_logs. simpl logs. now rewrite app_nil_r.
Qed.

(** C9. After a detection the vehicle list has at most 5 entries and the
    log at most 50, and so they have after every run of the hook from its
    initial state; a new log entry goes in front, so the log of a run is
    the entries created so far, newest first, cut at fifty. *)
Theorem C9_retention_bounded_newest_first
    (s : State) (d : TickDraws) (es : list Event) :
  (length (vehicles (detect d s)) <= 5)%nat /\
  (length (logs (detect d s)) <= 50)%nat /\
  (length (vehicles (run initialState es)) <= 5)%nat /\
  (length (logs (run initialState es)) <= 50)%nat /\
  logs (detect d s) =
    take 50
      (makeLog (speedLimit (config s)) (now_log d)
         (generateRandomVehicle (speedLimit (config s)) (vehicle_draws d))
       :: logs s) /\
  logs (run initialState es) = take 50 (rev (emitted initialState es)).
Proof.
  assert (Hb := run_bounds es initialState).
  destruct Hb as [Hv Hl]; [simpl; lia | simpl; lia |].
  repeat split; auto.
  - rewrite detect_vehicles. apply updateVehicles_length.
  - rewrite detect_logs. apply updateLogs_length.
  - apply initial_run_logs.
Qed.

(** ** Statistics *)

Lemma count_overspeed_app l k :
  count_overspeed (l ++ k) = count_overspeed l + count_overspeed k.
Proof.
  unfold count_overspeed. rewrite filter_app, length_app. lia.
Qed.

Lemma count_overspeed_one e :
  count_overspeed [e] = if log_isOverspeed e then 1 else 0.
Proof.
  unfold count_overspeed. destruct (log_isOverspeed e) eqn:He.
  - rewrite filter_cons_True by exact He. reflexivity.
  - rewrite filter_cons_False by congruence. reflexivity.
Qed.

Lemma count_overspeed_bounds l :
  0 <= count_overspeed l <= Z.of_nat (length l).
Proof.
  unfold count_overspeed.
  pose proof (length_filter (fun e => log_isOverspeed e = true) l). lia.
Qed.

Lemma step_stats s e :
  totalVehicles (stats (step s e)) =
    totalVehicles (stats s) + Z.of_nat (length (emit s e)) /\
  overspeedCount (stats (step s e)) =
    overspeedCount (stats s) + count_overspeed (emit s e) /\
  maxSpeedToday (stats s) <= maxSpeedToday (stats (step s e)).
Proof.
  destruct (step_cases s e) as [(-> & _ & _ & ->)|(d & _ & -> & ->)].
  - simpl. unfold count_overspeed. simpl. lia.
  - rewrite detect_stats, count_overspeed_one. simpl. lia.
Qed.

Lemma run_stats es : forall s,
  totalVehicles (stats (run s es)) =
    totalVehicles (stats s) + Z.of_nat (length (emitted s es)) /\
  overspeedCount (stats (run s es)) =
    overspeedCount (stats s) + count_overspeed (emitted s es) /\
  maxSpeedToday (stats s) <= maxSpeedToday (stats (run s es)).
Proof.
  induction es as [|e es IH]; intros s.
  - simpl. unfold count_overspeed. simpl. lia.
  - rewrite run_cons. simpl emitted.
    destruct (IH (step s e)) as (Ht & Ho & Hm).
    destruct (step_stats s e) as (Ht' & Ho' & Hm').
    rewrite Ht, Ho, Ht', Ho', length_app, count_overspeed_app. lia.
Qed.

(** C10. A detection adds exactly 1 to [totalVehicles], adds 1 to
    [overspeedCount] exactly when the vehicle is overspeed, and sets
    [maxSpeedToday] to the maximum of its previous value and the vehicle's
    speed; no event ever lowers [maxSpeedToday]; and in every run from the
    initial state [totalVehicles] counts the detections, [overspeedCount]
    the overspeed ones, so that [0 <= overspeedCount <= totalVehicles]. *)
Theorem C10_statistics_invariants
    (s : State) (d : TickDraws) (e : Event) (es : list Event) :
  let v := generateRandomVehicle (speedLimit (config s)) (vehicle_draws d) in
  let final := stats (run initialState es) in
  totalVehicles (stats (detect d s)) = totalVehicles (stats s) + 1 /\
  overspeedCount (stats (detect d s)) =
    overspeedCount (stats s) + (if isOverspeed v then 1 else 0) /\
  (overspeedCount (stats (detect d s)) = overspeedCount (stats s) + 1
     <-> isOverspeed v = true) /\
  maxSpeedToday (stats (detect d s)) =
    Z.max (maxSpeedToday (stats s)) (speed v) /\
  maxSpeedToday (stats s) <= maxSpeedToday (stats (step s e)) /\
  maxSpeedToday (stats s) <= maxSpeedToday (stats (run s es)) /\
  totalVehicles final = Z.of_nat (length (emitted initialState es)) /\
  overspeedCount final = count_overspeed (emitted initialState es) /\
  0 <= overspeedCount final <= totalVehicles final.
Proof.
  cbv zeta.
  destruct (run_stats es initialState) as (Ht & Ho & _).
  simpl in Ht, Ho.
  pose proof (count_overspeed_bounds (emitted initialState es)).
  repeat split; try (rewrite ?Ht, ?Ho; lia).
  - rewrite detect_stats. unfold updateStats. cbn [overspeedCount].
    destruct (isOverspeed _); [reflexivity | lia].
  - rewrite detect_stats. unfold updateStats. cbn [overspeedCount].
    intros ->. lia.
  - apply step_stats.
  - apply run_stats.
Qed.

(** ** Configuration updates and the log *)

(** C2. [updateConfig] leaves the log as it is; the entry of the next
    detection is classified against the new limit and goes on top of the
    old entries, which stay as they were created; and whatever follows the
    update, the log is the entries created after it, newest first, on top
    of the unchanged old ones, cut at fifty. *)
Theorem C2_config_update_keeps_emitted_entries
    (s : State) (c : CameraConfig) (d : TickDraws) (es : list Event) :
  let new :=
    makeLog (speedLimit c) (now_log d)
      (generateRandomVehicle (speedLimit c) (vehicle_draws d)) in
  logs (updateConfig c s) = logs s /\
  logs (detect d (updateConfig c s)) = take 50 (new :: logs s) /\
  log_speedLimit new = speedLimit c /\
  log_isOverspeed new = (log_speed new >? speedLimit c) /\
  take 50 (logs (run s (UpdateConfig c :: es))) =
    take 50 (rev (emitted (updateConfig c s) es) ++ logs s).
Proof.
  cbv zeta. repeat split.
  - apply updateConfig_logs.
  - rewrite detect_logs, updateConfig_config, updateConfig_logs. reflexivity.
  - rewrite run_cons. simpl step. rewrite run_logs, updateConfig_logs.
    reflexivity.
Qed.

(** ** The settings boundary *)

(** C4 (counterexample). A configuration with speed limit -5 and frame
    rate 0 is outside the declared ranges, yet [updateConfig] adopts it in
    place of the valid initial one, and the next vehicle, at 40 km/h, is
    logged against the limit -5 as overspeed. *)
Lemma C4_malformed_config_is_adopted :
  spec_valid_config (config initialState) = true /\
  spec_valid_config malformedConfig = false /\
  config (updateConfig malformedConfig initialState) = malformedConfig /\
  config
    (SettingsPanel.handleSave
       (SettingsPanel.setFps 0
          (SettingsPanel.setSpeedLimit (-5)
             (SettingsPanel.initialPanel initialConfig)))
       initialState) = malformedConfig /\
  config (updateConfig malformedConfig initialState) <> config initialState /\
  map log_detection
    (logs (run initialState
             [ConnectionTimer; UpdateConfig malformedConfig;
              IntervalTick (slow_tick 1000 "a")]))
  = [("car", 40, -5, true)].
Proof.
  repeat split; try reflexivity. discriminate.
Qed.

(** C4 (amended). [updateConfig] checks nothing, and neither does the
    settings panel when it saves: whatever configuration is given becomes
    the current one, vehicles, log and statistics stay as they are, the
    interval stays installed or not as it was, and the next detection is
    classified against the limit just given. *)
Theorem C4_updateConfig_adopts_any_config
    (s : State) (c : CameraConfig) (d : TickDraws)
    (p : SettingsPanel.PanelState) :
  let v := generateRandomVehicle (speedLimit c) (vehicle_draws d) in
  config (updateConfig c s) = c /\
  config (SettingsPanel.handleSave p s) = SettingsPanel.localConfig p /\
  vehicles (updateConfig c s) = vehicles s /\
  logs (updateConfig c s) = logs s /\
  stats (updateConfig c s) = stats s /\
  interval_installed (updateConfig c s) = interval_installed s /\
  logs (detect d (updateConfig c s)) =
    take 50 (makeLog (speedLimit c) (now_log d) v :: logs s) /\
  isOverspeed v = (speed v >? speedLimit c).
Proof.
  cbv zeta. unfold SettingsPanel.handleSave.
  repeat split;
    auto using updateConfig_config, updateConfig_vehicles, updateConfig_logs,
      updateConfig_stats, updateConfig_playing.
  rewrite detect_logs, updateConfig_config, updateConfig_logs. reflexivity.
Qed.

(** ** The exported file *)

(** C5 (counterexample). For an overspeed entry with a snapshot reference
    the exported row has five fields, not the six of the specified record;
    the file is a header line and that row, and it is the same file
    without the snapshot reference. *)
Lemma C5_snapshot_reference_not_exported :
  let e := sample_log (Some "/snapshots/v_1000_a.jpg") in
  row sample_locale e <> spec_record sample_locale e /\
  length (row sample_locale e) = 5%nat /\
  length (spec_record sample_locale e) = 6%nat /\
  csvLines sample_locale [e] =
    ["Time,Vehicle Type,Speed (km/h),Speed Limit,Status";
     "1000 ms,car,112,80,Overspeed"] /\
  csvContent sample_locale [e] = csvContent sample_locale [sample_log None].
Proof.
  repeat split; try reflexivity. discriminate.
Qed.

Lemma row_withSnapshot f u e : row f (withSnapshot u e) = row f e.
Proof. reflexivity. Qed.

(** C5 (amended). The exported CSV is a header line followed by one line
    per log entry, in the order of the log; line [i + 1] is the comma-joined
    row of entry [i], whose five fields are the rendered timestamp, the
    vehicle type, the speed, the speed limit and the status [Overspeed] or
    [Normal]; the snapshot reference is not exported: replacing it in every
    entry leaves the file the same. *)
Theorem C5_csv_header_and_five_field_rows
    (toLocaleString : Z -> string) (l : list SpeedLog)
    (u : option string) :
  length (csvLines toLocaleString l) = S (length l) /\
  csvLines toLocaleString l !! 0%nat =
    Some "Time,Vehicle Type,Speed (km/h),Speed Limit,Status" /\
  (forall i, csvLines toLocaleString l !! S i =
     (fun e => join "," (row toLocaleString e)) <$> l !! i) /\
  Forall (fun r => length r = 5%nat) (rows toLocaleString l) /\
  (forall e, row toLocaleString e =
     [toLocaleString (log_timestamp e); log_vehicleType e;
      string_of_number (log_speed e); string_of_number (log_speedLimit e);
      if log_isOverspeed e then "Overspeed" else "Normal"]) /\
  csvContent toLocaleString (map (withSnapshot u) l) =
    csvContent toLocaleString l.
Proof.
  repeat split.
  - unfold csvLines, rows. simpl. now rewrite !length_map.
  - intros i. unfold csvLines, rows. simpl.
    rewrite map_map. apply (list_lookup_fmap _ l i).
  - unfold rows. apply List.Forall_forall. intros r Hr.
    apply in_map_iff in Hr as (e & <- & _). reflexivity.
  - unfold csvContent, csvLines, rows. do 3 f_equal.
    rewrite map_map. apply map_ext. intros e. apply row_withSnapshot.
Qed.

(** ** Snapshot references *)



(** ** Vehicle identifiers *)

Lemma string_of_number_inj a b :
  string_of_number a = string_of_number b -> a = b.
Proof.
  unfold string_of_number. intros H.
  apply (f_equal NilEmpty.int_of_string) in H.
  rewrite !NilEmpty.isi in H. injection H as H.
  apply (f_equal Z.of_int) in H. now rewrite !DecimalZ.of_to in H.
Qed.

Lemma string_of_uint_free d : free_of "_" (NilEmpty.string_of_uint d) = true.
Proof. induction d; simpl; auto. Qed.

Lemma string_of_number_free z : free_of "_" (string_of_number z) = true.
Proof.
  unfold string_of_number. destruct (Z.to_int z) as [u|u]; simpl.
  - apply string_of_uint_free.
  - apply string_of_uint_free.
Qed.

(** Two strings that hold no [c] and are each followed by [c] and a rest:
    when the wholes are equal, so are the parts. *)
Lemma append_sep_inj c : forall a b x y,
  free_of c a = true -> free_of c b = true ->
  a +:+ String c x = b +:+ String c y -> a = b /\ x = y.
Proof.
  induction a as [|h a IH]; intros [|k b] x y Ha Hb H; simpl in *.
  - injection H as H. now split.
  - injection H as Hc _. subst k. rewrite Ascii.eqb_refl in Hb. discriminate.
  - injection H as Hc _. subst h. rewrite Ascii.eqb_refl in Ha. discriminate.
  - injection H as Hh H. subst k.
    apply andb_true_iff in Ha as [_ Ha]. apply andb_true_iff in Hb as [_ Hb].
    destruct (IH b x y Ha Hb H) as [-> ->]. now split.
Qed.

(** The id of a vehicle tells its clock reading and its suffix, and nothing
    else enters it. *)
Lemma vehicle_id_inj l1 l2 d1 d2 :
  id (generateRandomVehicle l1 d1) = id (generateRandomVehicle l2 d2) <->
  now_id d1 = now_id d2 /\ id_suffix d1 = id_suffix d2.
Proof.
  simpl. split.
  - intros H. injection H as H.
    apply append_sep_inj in H as [H ->]; auto using string_of_number_free.
    split; [now apply string_of_number_inj | reflexivity].
  - intros [-> ->]. reflexivity.
Qed.

Lemma emit_ids s e x :
  x ∈ map log_vehicleId (emit s e) ->
  exists d, e = IntervalTick d /\
    x = id (generateRandomVehicle 0 (vehicle_draws d)).
Proof.
  destruct (step_cases s e) as [(-> & _)|(d & -> & _ & ->)]; simpl.
  - intros H. inversion H.
  - intros H. apply list_elem_of_singleton in H. exists d. now split.
Qed.

Lemma emitted_ids es : forall s x,
  x ∈ map log_vehicleId (emitted s es) ->
  exists d, IntervalTick d ∈ es /\
    x = id (generateRandomVehicle 0 (vehicle_draws d)).
Proof.
  induction es as [|e es IH]; intros s x; simpl.
  - intros H. inversion H.
  - rewrite map_app, elem_of_app. intros [H|H].
    + apply emit_ids in H as (d & -> & ->). exists d. split; [left|reflexivity].
    + apply IH in H as (d & Hd & ->). exists d. split; [now right|reflexivity].
Qed.

Lemma id_keys_tick d es :
  IntervalTick d ∈ es ->
  (now_id (vehicle_draws d), id_suffix (vehicle_draws d)) ∈ id_keys es.
Proof.
  intros H. unfold id_keys. apply list_elem_of_omap.
  exists (IntervalTick d). now split.
Qed.

Lemma id_keys_cons e es :
  id_keys (e :: es) =
  match e with
  | IntervalTick d =>
      (now_id (vehicle_draws d), id_suffix (vehicle_draws d)) :: id_keys es
  | _ => id_keys es
  end.
Proof. now destruct e. Qed.

Lemma makeLog_vehicleId limit now v : log_vehicleId (makeLog limit now v) = id v.
Proof. reflexivity. Qed.

Lemma emitted_ids_NoDup es : forall s,
  NoDup (id_keys es) -> NoDup (map log_vehicleId (emitted s es)).
Proof.
  induction es as [|e es IH]; intros s Hk; [constructor|].
  cbn [emitted]. rewrite map_app. rewrite id_keys_cons in Hk.
  destruct (step_cases s e) as [(-> & _)|(d & -> & _ & ->)].
  - apply IH. destruct e; auto. now apply NoDup_cons_1_2 in Hk.
  - apply NoDup_cons in Hk as [Hd Hk].
    cbn [map app]. rewrite makeLog_vehicleId.
    constructor; [|now apply IH].
    intros Hin. apply emitted_ids in Hin as (d' & Hd' & Heq).
    apply vehicle_id_inj in Heq as [H1 H2].
    apply Hd. rewrite H1, H2. now apply id_keys_tick.
Qed.

(** *** The order of ids *)

(** The value of a sequence of decimal digits, and its size. *)
Lemma uint_value_bound (d : Decimal.uint) :
  (Pos.of_uint d < 10 ^ Unsigned.usize d)%N.
Proof.
  rewrite Unsigned.of_uint_alt.
  induction d; simpl Unsigned.usize;
    [ simpl; lia | .. ];
    unfold Decimal.rev; simpl Decimal.revapp;
    rewrite Unsigned.of_lu_revapp; simpl Unsigned.of_lu;
    rewrite N.pow_succ_r'; fold (Decimal.rev d); lia.
Qed.

Lemma uint_value_cons (k : N) (f : Decimal.uint -> Decimal.uint)
    (d : Decimal.uint) :
  Unsigned.of_lu (f Decimal.Nil) = k ->
  (forall d', Decimal.rev (f d') = Decimal.revapp d' (f Decimal.Nil)) ->
  (Pos.of_uint (f d) = Pos.of_uint d + k * 10 ^ Unsigned.usize d)%N.
Proof.
  intros Hk Hf.
  rewrite !Unsigned.of_uint_alt, Hf, Unsigned.of_lu_revapp, Hk.
  reflexivity.
Qed.

(** Of two digit sequences of the same size, the one of smaller value
    comes first as a string, whatever follows the digits. *)
Lemma compare_digits : forall d1 d2 x y,
  Unsigned.usize d1 = Unsigned.usize d2 ->
  (Pos.of_uint d1 < Pos.of_uint d2)%N ->
  String.compare (NilEmpty.string_of_uint d1 +:+ x)
                 (NilEmpty.string_of_uint d2 +:+ y) = Lt.
Proof.
  induction d1 as [|d1 IH|d1 IH|d1 IH|d1 IH|d1 IH|d1 IH|d1 IH|d1 IH|d1 IH
                   |d1 IH];
    intros d2 x y Hsize Hlt;
    destruct d2 as [|d2|d2|d2|d2|d2|d2|d2|d2|d2|d2];
    simpl Unsigned.usize in Hsize;
    try (exfalso; lia);
    try (apply N.succ_inj in Hsize;
         pose proof (uint_value_bound d1) as Hb1;
         pose proof (uint_value_bound d2) as Hb2;
         match type of Hlt with
         | (Pos.of_uint (?f d1) < Pos.of_uint (?g d2))%N =>
             rewrite (uint_value_cons _ f d1 eq_refl (fun _ => eq_refl))
               in Hlt;
             rewrite (uint_value_cons _ g d2 eq_refl (fun _ => eq_refl))
               in Hlt
         end;
         cbn [Unsigned.of_lu] in Hlt;
         rewrite Hsize in Hb1, Hlt;
         simpl;
         first [ reflexivity | apply IH; [exact Hsize | lia] | exfalso; lia ]).
Qed.

Lemma string_of_uint_length d :
  N.of_nat (String.length (NilEmpty.string_of_uint d)) = Unsigned.usize d.
Proof.
  induction d; simpl String.length; simpl Unsigned.usize;
    rewrite ?Nat2N.inj_succ, ?IHd; reflexivity.
Qed.

(** The digits of a clock reading that is not negative. *)
Lemma string_of_number_digits t :
  0 <= t ->
  exists d, string_of_number t = NilEmpty.string_of_uint d /\
            Z.of_N (Pos.of_uint d) = t.
Proof.
  intros Ht. unfold string_of_number.
  pose proof (DecimalZ.of_to t) as Hof.
  destruct t as [|p|p]; [| |lia]; simpl Z.to_int in *;
    eexists; (split; [reflexivity | exact Hof]).
Qed.

Lemma string_of_number_lt a b x y :
  later_same_width a b ->
  String.compare (string_of_number a +:+ x) (string_of_number b +:+ y) = Lt.
Proof.
  intros [[Ha Hab] Hlen].
  destruct (string_of_number_digits a Ha) as (da & Hda & Hva).
  destruct (string_of_number_digits b) as (db & Hdb & Hvb); [lia|].
  rewrite Hda, Hdb in *. apply compare_digits.
  - rewrite <- !string_of_uint_length. now rewrite Hlen.
  - lia.
Qed.

(** The id of a vehicle created at a later clock reading of the same
    number of digits is the greater string, whatever the suffixes. *)
Lemma vehicle_id_lt l1 l2 d1 d2 :
  later_same_width (now_id d1) (now_id d2) ->
  id_lt (id (generateRandomVehicle l1 d1)) (id (generateRandomVehicle l2 d2)).
Proof.
  intros H. unfold id_lt, String.ltb. cbn [id generateRandomVehicle].
  change ("v_" +:+ string_of_number (now_id d1) +:+ "_" +:+ id_suffix d1)
    with (String "v" (String "_"
            (string_of_number (now_id d1) +:+ "_" +:+ id_suffix d1))).
  change ("v_" +:+ string_of_number (now_id d2) +:+ "_" +:+ id_suffix d2)
    with (String "v" (String "_"
            (string_of_number (now_id d2) +:+ "_" +:+ id_suffix d2))).
  cbn [String.compare]. change (Ascii.compare "v" "v") with Eq.
  change (Ascii.compare "_" "_") with Eq. cbn iota.
  now rewrite string_of_number_lt.
Qed.

Lemma id_clocks_cons e es :
  id_clocks (e :: es) =
  match e with
  | IntervalTick d => now_id (vehicle_draws d) :: id_clocks es
  | _ => id_clocks es
  end.
Proof. now destruct e. Qed.

Lemma id_clocks_tick d es :
  IntervalTick d ∈ es -> now_id (vehicle_draws d) ∈ id_clocks es.
Proof.
  intros H. unfold id_clocks. apply list_elem_of_omap.
  exists (IntervalTick d). now split.
Qed.

Lemma emitted_ids_sorted es : forall s,
  StronglySorted later_same_width (id_clocks es) ->
  StronglySorted id_lt (map log_vehicleId (emitted s es)).
Proof.
  induction es as [|e es IH]; intros s Hk; [constructor|].
  cbn [emitted]. rewrite map_app. rewrite id_clocks_cons in Hk.
  destruct (step_cases s e) as [(-> & _)|(d & -> & _ & ->)].
  - apply IH. destruct e; auto. now apply StronglySorted_inv in Hk.
  - apply StronglySorted_inv in Hk as [Hk Hd].
    cbn [map app]. rewrite makeLog_vehicleId.
    constructor; [now apply IH|].
    apply List.Forall_forall. intros x Hx.
    apply list_elem_of_In, emitted_ids in Hx as (d' & Hd' & ->).
    apply vehicle_id_lt.
    rewrite List.Forall_forall in Hd. apply Hd.
    now apply list_elem_of_In, id_clocks_tick.
Qed.

Lemma sorted_ids_increasing (l : list string) :
  StronglySorted id_lt l -> spec_ids_increasing l = true.
Proof.
  induction 1 as [|a l Hl IH Ha]; [reflexivity|].
  destruct l as [|b l]; [reflexivity|].
  cbn [spec_ids_increasing]. apply andb_true_iff. split; [|exact IH].
  apply Forall_inv in Ha. exact Ha.
Qed.

(** C6 (counterexample). When two firings of the interval draw the same
    clock reading and the same suffix, the two vehicles get the same id,
    in the vehicle list and in the log; when the clock is set back between
    two firings, or passes from three to four digits, the later id is not
    greater than the earlier one. *)
Lemma C6_vehicle_ids_can_repeat :
  map id (vehicles (run initialState run_same_draws)) =
    ["v_1000_a"; "v_1000_a"] /\
  map log_vehicleId (emitted initialState run_same_draws) =
    ["v_1000_a"; "v_1000_a"] /\
  ~ NoDup (map log_vehicleId (emitted initialState run_same_draws)) /\
  map log_vehicleId (emitted initialState run_clock_back) =
    ["v_2000_a"; "v_1000_b"] /\
  spec_ids_increasing
    (map log_vehicleId (emitted initialState run_clock_back)) = false /\
  map log_vehicleId (emitted initialState run_more_digits) =
    ["v_999_a"; "v_1000_a"] /\
  spec_ids_increasing
    (map log_vehicleId (emitted initialState run_more_digits)) = false.
Proof.
  assert (Hids : map log_vehicleId (emitted initialState run_same_draws) =
                 ["v_1000_a"; "v_1000_a"]) by (vm_compute; reflexivity).
  split; [vm_compute; reflexivity|]. split; [exact Hids|].
  split.
  - rewrite Hids. intros H. apply NoDup_cons_1_1 in H. apply H. left.
  - vm_compute. repeat split.
Qed.

(** C6 (amended). The id of a vehicle is made of the clock reading and the
    random suffix drawn for it: two vehicles have the same id exactly when
    both coincide. So in a run in which no two firings of the interval
    share both, the ids of the vehicles created are pairwise distinct: none
    is used twice. And in a run in which the clock readings of the firings
    are not negative, increase strictly and keep the same number of digits,
    ids are assigned in increasing order: a vehicle created later has an
    id greater, as strings compare, than every id created earlier. *)
Theorem C6_ids_distinct_for_distinct_draws
    (s : State) (es : list Event) (Hkeys : NoDup (id_keys es)) :
  NoDup (map log_vehicleId (emitted s es)) /\
  (forall l1 l2 d1 d2,
     id (generateRandomVehicle l1 d1) = id (generateRandomVehicle l2 d2) <->
     now_id d1 = now_id d2 /\ id_suffix d1 = id_suffix d2) /\
  (StronglySorted later_same_width (id_clocks es) ->
   StronglySorted id_lt (map log_vehicleId (emitted s es)) /\
   spec_ids_increasing (map log_vehicleId (emitted s es)) = true).
Proof.
  split; [now apply emitted_ids_NoDup|]. split; [apply vehicle_id_inj|].
  intros Hclock. pose proof (emitted_ids_sorted es s Hclock) as Hs.
  split; [exact Hs | now apply sorted_ids_increasing].
Qed.

Lemma C6_ids_distinct_witness :
  NoDup (id_keys run_two_fast) /\
  StronglySorted later_same_width (id_clocks run_two_fast) /\
  NoDup (map log_vehicleId (emitted initialState run_two_fast)) /\
  spec_ids_increasing
    (map log_vehicleId (emitted initialState run_two_fast)) = true.
Proof.
  assert (Hkeys : NoDup (id_keys run_two_fast)).
  { apply (bool_decide_unpack _). vm_compute. reflexivity. }
  assert (Hclock : StronglySorted later_same_width (id_clocks run_two_fast)).
  { change (StronglySorted later_same_width [1000; 2500]).
    apply SSorted_cons;
      [apply SSorted_cons; [apply SSorted_nil | apply List.Forall_nil]
      |apply List.Forall_cons; [|apply List.Forall_nil]].
    split; [lia | reflexivity]. }
  destruct (C6_ids_distinct_for_distinct_draws
              initialState run_two_fast Hkeys) as (Hnd & _ & Hord).
  split; [exact Hkeys|]. split; [exact Hclock|]. split; [exact Hnd|].
  exact (proj2 (Hord Hclock)).
Defined.

(** ** Snapshots, vehicle by vehicle *)





(** ** Determinism *)

Lemma detection_gate d1 d2 :
  detection_of d1 = detection_of d2 -> gate_open d1 = gate_open d2.
Proof.
  unfold detection_of.
  destruct (gate_open d1), (gate_open d2); intros H;
    reflexivity || discriminate H.
Qed.

(** What a generated vehicle owes to the detection it stands for. *)
Lemma detection_fields d1 d2 limit :
  gate_open d1 = true -> detection_of d1 = detection_of d2 ->
  let v1 := generateRandomVehicle limit (vehicle_draws d1) in
  let v2 := generateRandomVehicle limit (vehicle_draws d2) in
  type v1 = type v2 /\ speed v1 = speed v2 /\
  isOverspeed v1 = isOverspeed v2 /\
  confidence v1 = confidence v2 /\ bbox v1 = bbox v2.
Proof.
  intros Hg H. pose proof (detection_gate _ _ H) as Hg2.
  unfold detection_of in H. rewrite <- Hg2, Hg in H.
  apply (inj Some) in H.
  pose proof (f_equal det_classLabel H) as Ht.
  pose proof (f_equal det_speed H) as Hs.
  pose proof (f_equal det_confidence H) as Hc.
  pose proof (f_equal det_bbox H) as Hb.
  cbn [det_classLabel det_speed det_confidence det_bbox] in Ht, Hs, Hc, Hb.
  cbv zeta. repeat split; try assumption.
  change ((speed (generateRandomVehicle 0 (vehicle_draws d1)) >? limit) =
          (speed (generateRandomVehicle 0 (vehicle_draws d2)) >? limit)).
  now rewrite Hs.
Qed.

Lemma generateRandomVehicle_ext limit d1 d2 :
  let v1 := generateRandomVehicle limit d1 in
  let v2 := generateRandomVehicle limit d2 in
  type v1 = type v2 -> speed v1 = speed v2 ->
  isOverspeed v1 = isOverspeed v2 ->
  confidence v1 = confidence v2 -> bbox v1 = bbox v2 ->
  now_id d1 = now_id d2 -> id_suffix d1 = id_suffix d2 ->
  now_timestamp d1 = now_timestamp d2 ->
  v1 = v2.
Proof.
  cbv zeta. intros Ht Hs Ho Hc Hb Hn Hx Hts.
  destruct (generateRandomVehicle limit d1) eqn:E1.
  destruct (generateRandomVehicle limit d2) eqn:E2.
  cbn in Ht, Hs, Ho, Hc, Hb. subst.
  apply (f_equal id) in E1 as Hi1. apply (f_equal id) in E2 as Hi2.
  apply (f_equal timestamp) in E1 as Ht1.
  apply (f_equal timestamp) in E2 as Ht2.
  apply (f_equal lane) in E1 as Hl1. apply (f_equal lane) in E2 as Hl2.
  cbn in Hi1, Hi2, Ht1, Ht2, Hl1, Hl2.
  rewrite Hn, Hx in Hi1. rewrite Hts in Ht1. congruence.
Qed.

Lemma step_same_inputs s e1 e2 :
  same_inputs e1 e2 -> step s e1 = step s e2.
Proof.
  destruct e1 as [l1| |d1| |c1| |l1], e2 as [l2| |d2| |c2| |l2];
    cbn [same_inputs]; intros H;
    try discriminate H; try (injection H as ->); try reflexivity.
  destruct H as [Hdet Hrest]. cbn [step]. unfold tick, intervalCallback.
  destruct (interval_installed s); [|reflexivity].
  rewrite <- (detection_gate _ _ Hdet).
  destruct (gate_open d1) eqn:Hg; [|reflexivity].
  destruct (Hrest eq_refl) as (Hn & Hx & Hts & Hf & Hl).
  destruct (detection_fields d1 d2 (speedLimit (config s)) Hg Hdet)
    as (Ht & Hs & Ho & Hc & Hb).
  unfold detect. rewrite Hf, Hl.
  now rewrite (generateRandomVehicle_ext _ _ _ Ht Hs Ho Hc Hb Hn Hx Hts).
Qed.

Lemma run_same_inputs es1 es2 :
  Forall2 same_inputs es1 es2 -> forall s, run s es1 = run s es2.
Proof.
  induction 1 as [|e1 e2 es1 es2 He _ IH]; intros s; [reflexivity|].
  rewrite !run_cons, (step_same_inputs s e1 e2 He). apply IH.
Qed.

Lemma same_report_refl s : same_report s s.
Proof. repeat split. Qed.

Lemma same_report_installed s1 s2 :
  same_report s1 s2 -> interval_installed s1 = interval_installed s2.
Proof.
  intros (Hc & Hp & _). unfold interval_installed. now rewrite Hc, Hp.
Qed.

Lemma detect_same_report s1 s2 d1 d2 :
  same_report s1 s2 -> gate_open d1 = true ->
  detection_of d1 = detection_of d2 ->
  same_report (detect d1 s1) (detect d2 s2).
Proof.
  intros (Hc & Hp & Hl & Hloc & Hll & Hst & Hcfg) Hg Hdet.
  destruct (detection_fields d1 d2 (speedLimit (config s1)) Hg Hdet)
    as (Ht & Hs & Ho & _).
  rewrite Hcfg in Ht, Hs, Ho.
  repeat split; try assumption.
  - rewrite !detect_logs. unfold updateLogs, slice_first.
    rewrite <- !firstn_map. cbn [map]. rewrite Hl. do 2 f_equal.
    unfold log_detection, makeLog.
    cbn [log_vehicleType log_speed log_speedLimit log_isOverspeed].
    now rewrite Hcfg, Ht, Hs, Ho.
  - rewrite !detect_stats. unfold updateStats.
    now rewrite Hcfg, Hst, Hs, Ho.
Qed.

Lemma step_same_report s1 s2 e1 e2 :
  same_report s1 s2 -> same_detections e1 e2 ->
  same_report (step s1 e1) (step s2 e2).
Proof.
  intros Hs He. pose proof Hs as (Hc & Hp & Hl & Hloc & Hll & Hst & Hcfg).
  destruct e1 as [l1| |d1| |c1| |l1], e2 as [l2| |d2| |c2| |l2];
    cbn [same_detections] in He;
    try discriminate He; try (injection He as ->); cbn [step].
  - unfold detectLocation_done.
    destruct (is_auto_detected l2); repeat split; cbn; congruence.
  - repeat split; cbn; congruence.
  - unfold tick, intervalCallback.
    rewrite <- (same_report_installed _ _ Hs), <- (detection_gate _ _ He).
    destruct (interval_installed s1); [|exact Hs].
    destruct (gate_open d1) eqn:Hg; [|exact Hs].
    now apply detect_same_report.
  - unfold togglePlay. repeat split; cbn; congruence.
  - unfold updateConfig. rewrite Hloc.
    destruct (locationData s2) as [l|] eqn:Hloc2; [destruct (negb _)|];
      repeat split; cbn; congruence.
  - repeat split; cbn; congruence.
  - unfold refreshLocation_done.
    destruct (is_auto_detected l2); repeat split; cbn; congruence.
Qed.

Lemma run_same_report es1 es2 :
  Forall2 same_detections es1 es2 ->
  forall s1 s2, same_report s1 s2 ->
  same_report (run s1 es1) (run s2 es2).
Proof.
  induction 1 as [|e1 e2 es1 es2 He _ IH]; intros s1 s2 Hs; [exact Hs|].
  rewrite !run_cons. apply IH. now apply step_same_report.
Qed.

(** C7 (counterexample). Two runs see the same two detections, the second
    one at another clock reading and with another suffix: the second
    vehicle gets another id, and the vehicle list, which drops vehicles
    older than three seconds, keeps both vehicles in one run and one in the
    other. *)
Lemma C7_same_detections_other_ids :
  Forall2 same_detections run_two_fast run_other_clock /\
  map log_vehicleId (logs (run initialState run_two_fast)) =
    ["v_2500_b"; "v_1000_a"] /\
  map log_vehicleId (logs (run initialState run_other_clock)) =
    ["v_9000_c"; "v_1000_a"] /\
  map id (vehicles (run initialState run_two_fast)) =
    ["v_1000_a"; "v_2500_b"] /\
  map id (vehicles (run initialState run_other_clock)) = ["v_9000_c"] /\
  run initialState run_two_fast <> run initialState run_other_clock.
Proof.
  split; [repeat constructor|].
  repeat split; try (vm_compute; reflexivity).
  intros H. apply (f_equal (fun s => length (vehicles s))) in H.
  vm_compute in H. discriminate H.
Qed.

(** C7 (amended). What a run computes is determined by its detections
    together with the clock readings and id suffixes drawn for them: two
    runs from the same state over the same detections have the same
    statistics and configuration and logs that agree, entry by entry, on
    vehicle type, speed, speed limit and overspeed flag; when the clock
    readings and suffixes are the same as well, the two runs end in the
    same state, with the same ids, logs and vehicle lists. *)
Theorem C7_determined_by_detections_clock_and_suffix
    (s : State) (es1 es2 : list Event)
    (Hdet : Forall2 same_detections es1 es2) :
  stats (run s es1) = stats (run s es2) /\
  config (run s es1) = config (run s es2) /\
  map log_detection (logs (run s es1)) =
    map log_detection (logs (run s es2)) /\
  (Forall2 same_inputs es1 es2 -> run s es1 = run s es2).
Proof.
  destruct (run_same_report es1 es2 Hdet s s (same_report_refl s))
    as (_ & _ & Hl & _ & _ & Hst & Hcfg).
  repeat split; try assumption.
  intros Hin. now apply run_same_inputs.
Qed.

Lemma C7_determined_witness :
  Forall2 same_detections run_two_fast run_other_draws /\
  Forall2 same_inputs run_two_fast run_other_draws /\
  stats (run initialState run_two_fast) =
    stats (run initialState run_other_draws) /\
  run initialState run_two_fast = run initialState run_other_draws.
Proof.
  assert (Hdet : Forall2 same_detections run_two_fast run_other_draws).
  { repeat constructor. }
  assert (Hin : Forall2 same_inputs run_two_fast run_other_draws).
  { repeat constructor. }
  destruct (C7_determined_by_detections_clock_and_suffix
              initialState run_two_fast run_other_draws Hdet)
    as (Hst & _ & _ & Hrun).
  split; [exact Hdet|]. split; [exact Hin|]. split; [exact Hst|].
  exact (Hrun Hin).
Defined.

(** * Properties of the remaining code *)

(** ** The simulated detector *)

Lemma type_lookup (r : Random) :
  vehicleTypes
    !! Z.to_nat (Math_floor (rval r * inject_Z (Z.of_nat (length vehicleTypes))))
  = Some (nth (Z.to_nat
                 (Math_floor
                    (rval r * inject_Z (Z.of_nat (length vehicleTypes)))))
              vehicleTypes car).
Proof.
  destruct (nth_lookup_or_length vehicleTypes
              (Z.to_nat (Math_floor
                 (rval r * inject_Z (Z.of_nat (length vehicleTypes))))) car)
    as [H|H]; [exact H|].
  pose proof (type_index_in_range r). lia.
Qed.

(** X1. Whatever is drawn, a generated vehicle has a speed between 40 and
    119 km/h, both included (120 is never produced), and its type is read
    from [vehicleTypes] at an index inside the array. *)
Theorem X1_generated_speed_and_type_in_range (limit : Z) (d : VehicleDraws) :
  let v := generateRandomVehicle limit d in
  40 <= speed v <= 119 /\
  vehicleTypes
    !! Z.to_nat (Math_floor
                   (rval (r_type d) * inject_Z (Z.of_nat (length vehicleTypes))))
  = Some (type v).
Proof.
  cbv zeta. split; [apply speed_range | apply type_lookup].
Qed.

(** X2. A generated vehicle has a confidence between 0.85 and 0.99, and
    its box, in percent of the frame, lies inside the frame: it starts at
    20 or more from the left and 30 or more from the top, is at least 15
    wide and 20 high, and ends at 95 and 90 at most. *)
Theorem X2_generated_confidence_and_box_in_frame
    (limit : Z) (d : VehicleDraws) :
  let v := generateRandomVehicle limit d in
  (85 # 100 <= confidence v)%Q /\ (confidence v <= 99 # 100)%Q /\
  (20 <= bbox_x (bbox v))%Q /\ (30 <= bbox_y (bbox v))%Q /\
  (15 <= bbox_width (bbox v))%Q /\ (20 <= bbox_height (bbox v))%Q /\
  (bbox_x (bbox v) + bbox_width (bbox v) <= 95)%Q /\
  (bbox_y (bbox v) + bbox_height (bbox v) <= 90)%Q.
Proof.
  cbv zeta.
  cbn [confidence bbox bbox_x bbox_y bbox_width bbox_height
       generateRandomVehicle].
  destruct (Random_range (r_confidence d)), (Random_range (r_bbox_x d)),
    (Random_range (r_bbox_y d)), (Random_range (r_bbox_width d)),
    (Random_range (r_bbox_height d)).
  repeat split; lra.
Qed.

(** ** Connecting, pausing *)

Lemma step_connectionStatus s e :
  connectionStatus (step s e) =
  if is_timer e then connected else connectionStatus s.
Proof.
  destruct e as [l| |d| |c| |l]; cbn [step is_timer]; try reflexivity.
  - unfold detectLocation_done. now destruct (is_auto_detected l).
  - unfold tick, intervalCallback.
    destruct (interval_installed s), (gate_open d); reflexivity.
  - unfold updateConfig.
    destruct (locationData s) as [l|]; [destruct (negb _)|]; reflexivity.
  - unfold refreshLocation_done. now destruct (is_auto_detected l).
Qed.

Lemma run_connectionStatus es : forall s,
  connectionStatus (run s es) =
  if existsb is_timer es then connected else connectionStatus s.
Proof.
  induction es as [|e es IH]; intros s; [reflexivity|].
  rewrite run_cons, IH, step_connectionStatus. cbn [existsb].
  destruct (is_timer e), (existsb is_timer es); reflexivity.
Qed.

Lemma not_installed_emit s e : interval_installed s = false -> emit s e = [].
Proof. intros H. destruct e; cbn [emit]; try reflexivity. now rewrite H. Qed.

Lemma run_frame_without_detection es : forall s,
  emitted s es = [] ->
  vehicles (run s es) = vehicles s /\ logs (run s es) = logs s /\
  stats (run s es) = stats s.
Proof.
  induction es as [|e es IH]; intros s He; [now repeat split|].
  cbn [emitted] in He. apply app_eq_nil in He as [He1 He2].
  rewrite run_cons.
  destruct (IH _ He2) as (-> & -> & ->).
  destruct (step_cases s e) as [(_ & -> & -> & ->)|(d & _ & _ & He)];
    [now repeat split | congruence].
Qed.

Lemma emitted_before_connection es : forall s,
  connectionStatus s <> connected -> existsb is_timer es = false ->
  emitted s es = [].
Proof.
  induction es as [|e es IH]; intros s Hc Ht; [reflexivity|].
  cbn [existsb] in Ht. apply orb_false_iff in Ht as [Hte Ht].
  cbn [emitted]. rewrite not_installed_emit.
  - apply IH; [|exact Ht]. now rewrite step_connectionStatus, Hte.
  - unfold interval_installed.
    destruct (connectionStatus s); try congruence;
      now rewrite andb_false_r.
Qed.

(** X3. Nothing is detected before the connection timer has fired: a run
    from the initial state without that event creates no log entry and
    leaves the vehicle list empty and the statistics at their initial
    values, whatever the interval, the play button or the settings do. *)
Theorem X3_no_detection_before_connection
    (es : list Event) (Htimer : existsb is_timer es = false) :
  emitted initialState es = [] /\
  vehicles (run initialState es) = [] /\
  logs (run initialState es) = [] /\
  stats (run initialState es) = initialStats.
Proof.
  assert (He : emitted initialState es = []).
  { apply emitted_before_connection; [discriminate | exact Htimer]. }
  split; [exact He|]. now apply run_frame_without_detection.
Qed.

Lemma X3_no_detection_witness :
  existsb is_timer
    [IntervalTick (fast_tick 1000 "a"); TogglePlay;
     UpdateConfig malformedConfig; IntervalTick (fast_tick 2500 "b")] = false /\
  logs (run initialState
          [IntervalTick (fast_tick 1000 "a"); TogglePlay;
           UpdateConfig malformedConfig; IntervalTick (fast_tick 2500 "b")])
  = [].
Proof.
  split; [reflexivity|].
  apply (X3_no_detection_before_connection
           [IntervalTick (fast_tick 1000 "a"); TogglePlay;
            UpdateConfig malformedConfig; IntervalTick (fast_tick 2500 "b")]
           eq_refl).
Defined.

(** X4. The connection status only ever goes from connecting to
    connected: after any run from the initial state it is connected if the
    connection timer has fired and connecting otherwise, so the header
    shows one of these two texts and never Disconnected or Error; and from
    a connected state every run ends connected. *)
Theorem X4_connection_status_only_advances (s : State) (es : list Event) :
  connectionStatus (run initialState es) =
    (if existsb is_timer es then connected else connecting) /\
  Header.status_text (connectionStatus (run initialState es)) =
    (if existsb is_timer es then "Connected" else "Connecting...") /\
  connectionStatus (run (setConnectionStatus connected s) es) = connected.
Proof.
  rewrite !run_connectionStatus. cbn [connectionStatus initialState
                                      setConnectionStatus].
  destruct (existsb is_timer es); repeat split.
Qed.

Lemma paused_ticks ds : forall s,
  interval_installed s = false -> run s (map IntervalTick ds) = s.
Proof.
  induction ds as [|d ds IH]; intros s H; [reflexivity|].
  cbn [map]. rewrite run_cons. cbn [step]. unfold tick. rewrite H.
  now apply IH.
Qed.

(** X5. Firings of the interval while the feed is paused are lost, not
    queued: pausing a playing feed, any number of firings and resuming
    leave the state exactly as it was. *)
Theorem X5_pause_ticks_resume_is_identity
    (s : State) (ds : list TickDraws) (Hplay : isPlaying s = true) :
  run s ([TogglePlay] ++ map IntervalTick ds ++ [TogglePlay]) = s.
Proof.
  cbn [app]. rewrite run_cons. cbn [step].
  unfold run at 1. rewrite fold_left_app.
  fold (run (togglePlay s) (map IntervalTick ds)).
  rewrite paused_ticks.
  - cbn [fold_left step]. unfold togglePlay. destruct s. cbn in *.
    now rewrite Hplay.
  - unfold interval_installed, togglePlay. cbn. now rewrite Hplay.
Qed.

Lemma X5_pause_witness :
  isPlaying (run initialState [ConnectionTimer]) = true /\
  run (run initialState [ConnectionTimer])
      ([TogglePlay]
       ++ map IntervalTick [fast_tick 1000 "a"; slow_tick 2500 "b"]
       ++ [TogglePlay])
  = run initialState [ConnectionTimer].
Proof.
  split; [reflexivity|].
  apply (X5_pause_ticks_resume_is_identity
           (run initialState [ConnectionTimer])
           [fast_tick 1000 "a"; slow_tick 2500 "b"] eq_refl).
Defined.

(** ** Average and maximum speed *)






Lemma step_maxSpeedToday s e :
  maxSpeedToday (stats (step s e)) =
  fold_left Z.max (map log_speed (emit s e)) (maxSpeedToday (stats s)).
Proof.
  destruct (step_cases s e) as [(-> & _ & _ & ->)|(d & _ & -> & ->)];
    reflexivity.
Qed.

Lemma run_maxSpeedToday es : forall s,
  maxSpeedToday (stats (run s es)) =
  fold_left Z.max (map log_speed (emitted s es)) (maxSpeedToday (stats s)).
Proof.
  induction es as [|e es IH]; intros s; [reflexivity|].
  rewrite run_cons, IH, step_maxSpeedToday. cbn [emitted].
  now rewrite map_app, fold_left_app.
Qed.

Lemma fold_max_spec (l : list Z) : forall m,
  m <= fold_left Z.max l m /\
  Forall (fun x => x <= fold_left Z.max l m) l /\
  (fold_left Z.max l m = m \/ In (fold_left Z.max l m) l).
Proof.
  induction l as [|x l IH]; intros m; cbn [fold_left].
  - split; [lia|]. split; [constructor | now left].
  - destruct (IH (Z.max m x)) as (H1 & H2 & H3).
    split; [lia|]. split.
    + constructor; [lia | exact H2].
    + destruct H3 as [H3|H3]; [|right; now right].
      rewrite H3. destruct (Z.max_spec m x) as [[_ ->]|[_ ->]];
        [right; now left | now left].
Qed.

(** X7. In every run from the initial state the displayed maximum is the
    greatest speed detected in the whole run, entries that have left the
    log included, and 0 when nothing was detected: it bounds every speed
    detected, and it is 0 or one of these speeds. *)
Theorem X7_maximum_is_greatest_detected_speed (es : list Event) :
  let m := maxSpeedToday (stats (run initialState es)) in
  let speeds := map log_speed (emitted initialState es) in
  m = fold_left Z.max speeds 0 /\
  0 <= m /\
  Forall (fun x => x <= m) speeds /\
  (m = 0 \/ In m speeds).
Proof.
  cbv zeta. rewrite run_maxSpeedToday.
  cbn [maxSpeedToday stats initialState initialStats].
  split; [reflexivity|]. apply fold_max_spec.
Qed.

(** X9. In every run from the initial state the log holds as many entries
    as vehicles were counted, up to fifty, and the exported file has one
    line more than that: between 1 and 51 lines. *)
Theorem X9_log_length_is_min_of_total_and_fifty
    (toLocaleString : Z -> string) (es : list Event) :
  let s := run initialState es in
  Z.of_nat (length (logs s)) = Z.min 50 (totalVehicles (stats s)) /\
  Z.of_nat (length (csvLines toLocaleString (logs s))) =
    1 + Z.min 50 (totalVehicles (stats s)) /\
  (1 <= length (csvLines toLocaleString (logs s)) <= 51)%nat.
Proof.
  cbv zeta.
  destruct (run_stats es initialState) as (Ht & _).
  cbn [totalVehicles stats initialState initialStats] in Ht.
  assert (Hlen : Z.of_nat (length (logs (run initialState es))) =
                 Z.min 50 (totalVehicles (stats (run initialState es)))).
  { rewrite Ht, initial_run_logs, length_take, length_rev. lia. }
  unfold csvLines, rows. cbn [length]. rewrite !length_map.
  repeat split; lia.
Qed.

(** ** The vehicle list *)

Lemma updateVehicles_split now v prev :
  updateVehicles now v prev =
  (drop (length (filter (fun u => now - timestamp u < 3000) prev) - 4)
        (filter (fun u => now - timestamp u < 3000) prev) ++ [v])%list.
Proof.
  unfold updateVehicles, slice_last. rewrite length_app. cbn [length].
  rewrite drop_app_le by lia. do 2 f_equal. lia.
Qed.

(** X8. After a detection the vehicle list is not empty and ends with the
    new vehicle; the vehicles before it come from the previous list, in
    their order, at most four of them, and each is younger than 3000 ms at
    the clock reading of the update. *)
Theorem X8_vehicle_list_after_detection (d : TickDraws) (s : State) :
  let new := generateRandomVehicle (speedLimit (config s)) (vehicle_draws d) in
  exists kept,
    vehicles (detect d s) = (kept ++ [new])%list /\
    (length kept <= 4)%nat /\
    kept `sublist_of` vehicles s /\
    Forall (fun v => now_filter d - timestamp v < 3000) kept.
Proof.
  cbv zeta. rewrite detect_vehicles, updateVehicles_split.
  eexists. split; [reflexivity|]. split; [|split].
  - rewrite length_drop. lia.
  - etransitivity; [apply sublist_drop | apply sublist_filter].
  - apply Forall_drop. apply List.Forall_forall. intros v Hv.
    apply list_elem_of_In, list_elem_of_filter in Hv. tauto.
Qed.

Lemma run_vehicle_speeds es : forall s,
  Forall (fun v => 40 <= speed v <= 119) (vehicles s) ->
  Forall (fun v => 40 <= speed v <= 119) (vehicles (run s es)).
Proof.
  induction es as [|e es IH]; intros s Hs; [exact Hs|].
  rewrite run_cons. apply IH.
  destruct (step_cases s e) as [(_ & -> & _)|(d & _ & -> & _)]; [exact Hs|].
  rewrite detect_vehicles, updateVehicles_split. apply Forall_app. split.
  - apply Forall_drop. apply List.Forall_forall. intros v Hv.
    apply list_elem_of_In, list_elem_of_filter in Hv as [_ Hv].
    rewrite List.Forall_forall in Hs. apply Hs. now apply list_elem_of_In.
  - repeat constructor; apply speed_range.
Qed.

(** ** What the log of a run holds *)

(** A property of every entry [makeLog] can build for a generated vehicle
    holds of every entry a run creates, and of every entry in the log of a
    run from the initial state. *)
Lemma emitted_Forall (P : SpeedLog -> Prop) :
  (forall limit now d, P (makeLog limit now (generateRandomVehicle limit d))) ->
  forall es s, Forall P (emitted s es).
Proof.
  intros HP. induction es as [|e es IH]; intros s; cbn [emitted].
  - constructor.
  - apply Forall_app. split; [|apply IH].
    destruct (step_cases s e) as [(-> & _)|(d & _ & _ & ->)];
      repeat constructor. apply HP.
Qed.

Lemma initial_logs_Forall (P : SpeedLog -> Prop) :
  (forall limit now d, P (makeLog limit now (generateRandomVehicle limit d))) ->
  forall es, Forall P (logs (run initialState es)).
Proof.
  intros HP es. rewrite initial_run_logs.
  now apply Forall_take, Forall_rev, emitted_Forall.
Qed.

Lemma count_char_app c a b :
  count_char c (a +:+ b) = (count_char c a + count_char c b)%nat.
Proof.
  induction a as [|h a IH]; simpl; [reflexivity | rewrite IH; lia].
Qed.

Lemma free_of_count c s : free_of c s = true -> count_char c s = 0%nat.
Proof.
  induction s as [|h s IH]; cbn; [reflexivity|].
  intros [Hh Hs]%andb_true_iff. apply negb_true_iff in Hh. rewrite Hh.
  now apply IH.
Qed.

Lemma string_of_number_no_comma z : count_char "," (string_of_number z) = 0%nat.
Proof.
  apply free_of_count. unfold string_of_number.
  assert (H : forall u, free_of "," (NilEmpty.string_of_uint u) = true)
    by (induction u; simpl; auto).
  destruct (Z.to_int z); simpl; apply H.
Qed.

Lemma row_commas f limit now v :
  count_char "," (join "," (row f (makeLog limit now v))) =
  (4 + count_char "," (f (log_timestamp (makeLog limit now v))))%nat.
Proof.
  unfold join, row. cbn [String.concat].
  rewrite !count_char_app, !string_of_number_no_comma.
  cbn [log_vehicleType log_isOverspeed makeLog].
  assert (Ht : count_char "," (VehicleType_name (type v)) = 0%nat)
    by now destruct (type v).
  assert (Hs : count_char ","
                 (if isOverspeed v then "Overspeed" else "Normal") = 0%nat)
    by now destruct (isOverspeed v).
  rewrite Ht, Hs. cbn. lia.
Qed.

(** X10. A row of the exported file is not quoted: for every entry in the
    log of a run from the initial state, the line written for it holds
    four commas more than the locale's rendering of its timestamp does. So
    the line splits into the five columns of the header exactly when that
    rendering is free of commas. *)
Theorem X10_csv_row_has_four_commas_plus_those_of_the_date
    (toLocaleString : Z -> string) (es : list Event) :
  Forall
    (fun e =>
       count_char "," (join "," (row toLocaleString e)) =
       (4 + count_char "," (toLocaleString (log_timestamp e)))%nat)
    (logs (run initialState es)) /\
  count_char "," (join "," headers) = 4%nat.
Proof.
  split; [|reflexivity].
  apply initial_logs_Forall. intros limit now d. apply row_commas.
Qed.

(** X18. In the log table the snapshot button is rendered exactly for the
    overspeed entries: for every entry in the log of a run from the
    initial state, the button is shown if and only if the entry is marked
    overspeed. *)
Theorem X18_snapshot_button_iff_overspeed (es : list Event) :
  Forall (fun e => SpeedLogTable.showsSnapshot e = log_isOverspeed e)
         (logs (run initialState es)).
Proof.
  apply initial_logs_Forall. intros limit now d.
  unfold SpeedLogTable.showsSnapshot.
  cbn [log_snapshotUrl log_isOverspeed makeLog].
  now destruct (isOverspeed _).
Qed.

(** ** Log identifiers *)

Lemma log_id_inj l1 n1 v1 l2 n2 v2 :
  log_id (makeLog l1 n1 v1) = log_id (makeLog l2 n2 v2) <-> n1 = n2.
Proof.
  cbn [log_id makeLog]. split; [|now intros ->].
  intros H. injection H as H. now apply string_of_number_inj.
Qed.

Lemma emitted_log_ids es : forall s x,
  x ∈ map log_id (emitted s es) ->
  exists d, IntervalTick d ∈ es /\ x = "log_" +:+ string_of_number (now_log d).
Proof.
  induction es as [|e es IH]; intros s x; cbn [emitted].
  - intros H. inversion H.
  - rewrite map_app, elem_of_app. intros [H|H].
    + destruct (step_cases s e) as [(He & _)|(d & -> & _ & He)];
        rewrite He in H.
      * inversion H.
      * apply list_elem_of_singleton in H. exists d. split; [left|exact H].
    + apply IH in H as (d & Hd & ->). exists d. split; [now right|reflexivity].
Qed.

Lemma log_clocks_cons e es :
  log_clocks (e :: es) =
  match e with
  | IntervalTick d => now_log d :: log_clocks es
  | _ => log_clocks es
  end.
Proof. now destruct e. Qed.

Lemma emitted_log_ids_NoDup es : forall s,
  NoDup (log_clocks es) -> NoDup (map log_id (emitted s es)).
Proof.
  induction es as [|e es IH]; intros s Hk; [constructor|].
  cbn [emitted]. rewrite map_app. rewrite log_clocks_cons in Hk.
  destruct (step_cases s e) as [(-> & _)|(d & -> & _ & ->)].
  - apply IH. destruct e; auto. now apply NoDup_cons_1_2 in Hk.
  - apply NoDup_cons in Hk as [Hd Hk]. cbn [map app].
    constructor; [|now apply IH].
    intros Hin. apply emitted_log_ids in Hin as (d' & Hd' & Heq).
    cbn [log_id makeLog] in Heq. injection Heq as Heq.
    apply string_of_number_inj in Heq. apply Hd. rewrite Heq.
    unfold log_clocks. apply list_elem_of_omap.
    exists (IntervalTick d'). now split.
Qed.

(** X17. The id of a log entry is made of the clock reading of its
    creation alone: two entries have the same id exactly when they were
    created at the same millisecond. So in a run in which no two firings
    of the interval read the same clock value, the ids of the entries in
    the log, which the table uses as row keys, are pairwise distinct. *)
Theorem X17_log_ids_distinct_for_distinct_clock_readings
    (es : list Event) (Hclock : NoDup (log_clocks es)) :
  NoDup (map log_id (logs (run initialState es))) /\
  (forall l1 n1 v1 l2 n2 v2,
     log_id (makeLog l1 n1 v1) = log_id (makeLog l2 n2 v2) <-> n1 = n2).
Proof.
  split; [|apply log_id_inj].
  rewrite initial_run_logs, <- firstn_map.
  eapply sublist_NoDup; [|apply sublist_take].
  rewrite map_rev. apply NoDup_ListNoDup, List.NoDup_rev, NoDup_ListNoDup.
  now apply emitted_log_ids_NoDup.
Qed.

Lemma X17_log_ids_witness :
  NoDup (log_clocks run_two_fast) /\
  NoDup (map log_id (logs (run initialState run_two_fast))).
Proof.
  assert (Hclock : NoDup (log_clocks run_two_fast)).
  { apply (bool_decide_unpack _). vm_compute. reflexivity. }
  split; [exact Hclock|].
  apply (X17_log_ids_distinct_for_distinct_clock_readings run_two_fast Hclock).
Defined.

(** ** The maximum speed card *)

Lemma fold_max_gt (l : list Z) (m c : Z) :
  c < fold_left Z.max l m <-> c < m \/ Exists (fun x => c < x) l.
Proof.
  destruct (fold_max_spec l m) as (H1 & H2 & H3). split.
  - intros Hc. destruct H3 as [H3|H3]; [left; lia|].
    right. apply List.Exists_exists. eauto.
  - intros [Hc|Hc]; [lia|].
    apply List.Exists_exists in Hc as (x & Hx & Hc).
    rewrite List.Forall_forall in H2. specialize (H2 x Hx). lia.
Qed.

(** X19. The maximum speed card turns to its warning colour by the limit
    in force now, not by the limits the vehicles were logged against: after
    a run from the initial state it warns exactly when some speed detected
    in the run exceeds the current limit, or the current limit is
    negative. *)
Theorem X19_max_speed_warning_uses_current_limit (es : list Event) :
  let s := run initialState es in
  Index.maxSpeedWarning s = true <->
  speedLimit (config s) < 0 \/
  Exists (fun e => speedLimit (config s) < log_speed e)
         (emitted initialState es).
Proof.
  cbv zeta. unfold Index.maxSpeedWarning.
  rewrite gtb_true_iff, run_maxSpeedToday.
  cbn [maxSpeedToday stats initialState initialStats].
  rewrite Z.gt_lt_iff, fold_max_gt, List.Exists_map. reflexivity.
Qed.

(** ** The gauge *)

Lemma inject_Z_pos (z : Z) : 0 < z -> (0 < inject_Z z)%Q.
Proof.
  intros H. change (inject_Z 0 < inject_Z z)%Q. rewrite <- Zlt_Qlt. exact H.
Qed.


Lemma percentage_closed_form (cur max : Z) :
  0 < max ->
  (SpeedGauge.percentage cur max ==
   inject_Z (Z.min cur max) / inject_Z max * 100)%Q.
Proof.
  intros Hmax. unfold SpeedGauge.percentage.
  pose proof (inject_Z_pos max Hmax) as Hq.
  destruct (Z.le_gt_cases cur max) as [Hle|Hgt].
  - rewrite Z.min_l by exact Hle. apply Q.min_l.
    assert (inject_Z cur / inject_Z max <= 1)%Q.
    { apply Qle_shift_div_r; [exact Hq|]. rewrite Qmult_1_l.
      rewrite <- Zle_Qle. exact Hle. }
    lra.
  - rewrite Z.min_r by lia. rewrite Q.min_r.
    + field. lra.
    + assert (1 <= inject_Z cur / inject_Z max)%Q.
      { apply Qle_shift_div_l; [exact Hq|]. rewrite Qmult_1_l.
        rewrite <- Zle_Qle. lia. }
      lra.
Qed.



Lemma getCurrentSpeed_detect d s :
  getCurrentSpeed (detect d s) =
  speed (generateRandomVehicle (speedLimit (config s)) (vehicle_draws d)).
Proof.
  rewrite getCurrentSpeed_last, detect_vehicles. unfold updateVehicles.
  rewrite last_slice_last by lia. reflexivity.
Qed.

Lemma initial_getCurrentSpeed_range es :
  getCurrentSpeed (run initialState es) = 0 \/
  40 <= getCurrentSpeed (run initialState es) <= 119.
Proof.
  rewrite getCurrentSpeed_last.
  destruct (last (vehicles (run initialState es))) as [v|] eqn:Hlast;
    [right | now left].
  assert (H : Forall (fun v => 40 <= speed v <= 119)
                (vehicles (run initialState es)))
    by (apply run_vehicle_speeds; constructor).
  rewrite List.Forall_forall in H. apply H.
  apply list_elem_of_In. rewrite last_lookup in Hlast.
  eapply list_elem_of_lookup_2, Hlast.
Qed.

(** X12. On the dashboard, whose gauge ends at 150, the speed on the gauge
    is 0 or between 40 and 119 after every run from the initial state, so
    the gauge stays below 80 percent and its needle below 81 degrees: it
    never reaches its end. *)
Theorem X12_dashboard_gauge_never_saturates (es : list Event) :
  let sp := getCurrentSpeed (run initialState es) in
  (sp = 0 \/ 40 <= sp <= 119) /\
  (SpeedGauge.percentage sp Index.gaugeMaxSpeed < 80)%Q /\
  (SpeedGauge.rotation sp Index.gaugeMaxSpeed < 81)%Q.
Proof.
  cbv zeta. pose proof (initial_getCurrentSpeed_range es) as Hsp.
  split; [exact Hsp|].
  set (sp := getCurrentSpeed (run initialState es)) in *.
  pose proof (percentage_closed_form sp Index.gaugeMaxSpeed eq_refl) as Hp.
  assert (Hmin : Z.min sp Index.gaugeMaxSpeed = sp)
    by (unfold Index.gaugeMaxSpeed; lia).
  rewrite Hmin in Hp. unfold Index.gaugeMaxSpeed in *.
  change (inject_Z 150) with 150%Q in Hp.
  assert (Hq : (0 <= inject_Z sp)%Q /\ (inject_Z sp <= 119)%Q).
  { change 0%Q with (inject_Z 0). change 119%Q with (inject_Z 119).
    rewrite <- !Zle_Qle. lia. }
  unfold SpeedGauge.rotation.
  set (pc := SpeedGauge.percentage sp 150) in *.
  set (x := inject_Z sp) in *.
  assert (Hr : (pc / 100 * 270 == pc * (27 # 10))%Q) by field.
  assert (Hx : (x / 150 * 100 == x * (2 # 3))%Q) by field.
  rewrite Hr. rewrite Hx in Hp.
  split; lra.
Qed.

(** X13. Right after a detection the gauge shows the new vehicle: it is in
    its overspeed colour exactly when that vehicle is flagged, and then the
    video feed shows its overspeed alert. *)
Theorem X13_gauge_and_alert_follow_new_vehicle (d : TickDraws) (s : State) :
  let new := generateRandomVehicle (speedLimit (config s)) (vehicle_draws d) in
  let s' := detect d s in
  SpeedGauge.isOverspeed (getCurrentSpeed s') (speedLimit (config s')) =
    isOverspeed new /\
  (isOverspeed new = true -> VideoFeed.hasOverspeed (vehicles s') = true).
Proof.
  cbv zeta. split.
  - rewrite getCurrentSpeed_detect. reflexivity.
  - intros Hnew. rewrite detect_vehicles, updateVehicles_split.
    unfold VideoFeed.hasOverspeed. rewrite existsb_app. cbn [existsb].
    rewrite Hnew. now rewrite orb_true_r.
Qed.

Lemma X13_gauge_and_alert_witness :
  let s := run initialState [ConnectionTimer] in
  SpeedGauge.isOverspeed (getCurrentSpeed (detect (fast_tick 1000 "a") s))
                         (speedLimit (config s)) = true /\
  VideoFeed.hasOverspeed (vehicles (detect (fast_tick 1000 "a") s)) = true.
Proof.
  cbv zeta.
  destruct (X13_gauge_and_alert_follow_new_vehicle
              (fast_tick 1000 "a") (run initialState [ConnectionTimer]))
    as [Hg Ha].
  split; [exact Hg | exact (Ha eq_refl)].
Defined.

(** ** The location map *)

(** X14. The map component shows its loading card while the location is
    being fetched, whatever else it holds; otherwise every quick location
    of [EXAMPLE_LOCATIONS], once selected, is shown on a map centred on its
    coordinates, in place of any detected location; with nothing selected,
    no location or the fallback location gives the placeholder, and a
    detected location gives the placeholder exactly when its latitude or
    its longitude is zero. *)
Theorem X14_location_map_views
    (sel : option LocationMap.Example) (ld : option LocationData)
    (l : LocationData) :
  LocationMap.view true sel ld = LocationMap.Loading /\
  Forall (fun ex =>
            LocationMap.view false (Some ex) ld =
            LocationMap.Map (LocationMap.ex_lat ex, LocationMap.ex_lon ex))
         LocationMap.EXAMPLE_LOCATIONS /\
  LocationMap.view false None None = LocationMap.Placeholder /\
  LocationMap.view false None (Some fallbackLocation) =
    LocationMap.Placeholder /\
  (LocationMap.view false None (Some l) = LocationMap.Placeholder <->
   (latitude l == 0)%Q \/ (longitude l == 0)%Q).
Proof.
  split; [reflexivity|]. split; [repeat constructor|].
  split; [reflexivity|]. split; [reflexivity|].
  unfold LocationMap.view, LocationMap.currentLocation, LocationMap.falsy.
  cbn [LocationMap.place_latitude LocationMap.place_longitude].
  destruct (Qeq_bool (latitude l) 0) eqn:Hlat;
    destruct (Qeq_bool (longitude l) 0) eqn:Hlon; cbn [orb];
    try apply Qeq_bool_eq in Hlat; try apply Qeq_bool_eq in Hlon;
    try (split; [intros _; now (left + right) | reflexivity]).
  apply Qeq_bool_neq in Hlat. apply Qeq_bool_neq in Hlon.
  split; [discriminate | tauto].
Qed.

(** ** Location detection and the settings panel *)

Lemma fetchAutoLocation_cases toFixed4 trim o :
  is_auto_detected (fetchAutoLocation toFixed4 trim o) = true \/
  fetchAutoLocation toFixed4 trim o = fallbackLocation.
Proof.
  destruct o as [|[] [data|]]; cbn [fetchAutoLocation]; auto.
  destruct (data_error data); auto.
Qed.

Lemma detectLocation_done_location l s :
  is_auto_detected l = true \/ l = fallbackLocation ->
  cam_location (config (detectLocation_done l s)) = formatted l.
Proof.
  unfold detectLocation_done. intros [H| ->].
  - rewrite H. reflexivity.
  - reflexivity.
Qed.

Lemma updateConfig_same s l :
  locationData s = Some l -> cam_location (config s) = formatted l ->
  updateConfig (config s) s = s.
Proof.
  intros Hl Hc. unfold updateConfig. rewrite Hl, Hc, String.eqb_refl.
  now destruct s.
Qed.

(** X15. However the request to the location service ends, it yields an
    auto-detected location or the fallback location; once the start-up
    detection has stored it, the configuration's location is the text of
    that location and loading is over, so that saving the settings right
    after a reset of the panel changes nothing: the location is not marked
    as overridden by hand. *)
Theorem X15_location_detection_keeps_config_in_step
    (toFixed4 : Q -> string) (trim : string -> string)
    (o : FetchOutcome) (s : State) (p : SettingsPanel.PanelState) :
  let l := fetchAutoLocation toFixed4 trim o in
  let s' := detectLocation_done l s in
  (is_auto_detected l = true \/ l = fallbackLocation) /\
  locationData s' = Some l /\
  isLocationLoading s' = false /\
  cam_location (config s') = formatted l /\
  SettingsPanel.handleSave (SettingsPanel.reset (config s') p) s' = s'.
Proof.
  cbv zeta.
  pose proof (fetchAutoLocation_cases toFixed4 trim o) as Hl.
  set (l := fetchAutoLocation toFixed4 trim o) in *.
  assert (Hloc : locationData (detectLocation_done l s) = Some l)
    by (unfold detectLocation_done; now destruct (is_auto_detected l)).
  split; [exact Hl|]. split; [exact Hloc|].
  split; [unfold detectLocation_done; now destruct (is_auto_detected l)|].
  split; [now apply detectLocation_done_location|].
  unfold SettingsPanel.handleSave, SettingsPanel.reset.
  cbn [SettingsPanel.localConfig].
  apply (updateConfig_same _ l Hloc). now apply detectLocation_done_location.
Qed.

Lemma run_page_hook_events hs : forall p,
  Index.panel (Index.run_page p (map Index.HookEvent hs)) = Index.panel p /\
  Index.isSettingsOpen (Index.run_page p (map Index.HookEvent hs)) =
    Index.isSettingsOpen p /\
  Index.hook (Index.run_page p (map Index.HookEvent hs)) =
    run (Index.hook p) (List.filter Index.from_outside hs).
Proof.
  induction hs as [|h hs IH]; intros p; [now repeat split|].
  cbn [map List.filter]. unfold Index.run_page. cbn [fold_left].
  fold (Index.run_page (Index.page_step p (Index.HookEvent h))
          (map Index.HookEvent hs)).
  destruct (IH (Index.page_step p (Index.HookEvent h))) as (-> & -> & ->).
  cbn [Index.page_step]. destruct (Index.from_outside h); now repeat split.
Qed.

(** X16. The settings panel edits the copy of the configuration it took
    when the page was mounted, and nothing that happens outside the panel
    refreshes that copy. So whatever reached the hook since then, opening
    the panel and saving without an edit puts the initial configuration
    back: the location reads [Detecting location...] again, and a location
    detected meanwhile is marked as overridden by hand unless its text is
    that very placeholder. *)
Theorem X16_save_without_edit_restores_mount_time_config (hs : list Event) :
  let before := Index.run_page Index.initialPage (map Index.HookEvent hs) in
  let after :=
    Index.run_page Index.initialPage
      (map Index.HookEvent hs ++ [Index.OpenSettings; Index.ClickSave]) in
  config (Index.hook after) = initialConfig /\
  cam_location (config (Index.hook after)) = "Detecting location..." /\
  Index.isSettingsOpen after = false /\
  locationData (Index.hook after) =
    (fun l => if String.eqb "Detecting location..." (formatted l)
              then l else manualOverride l)
      <$> locationData (Index.hook before).
Proof.
  cbv zeta. unfold Index.run_page at 1 2 3 4. rewrite !fold_left_app.
  fold (Index.run_page Index.initialPage (map Index.HookEvent hs)).
  destruct (run_page_hook_events hs Index.initialPage) as (Hp & Ho & Hh).
  set (before := Index.run_page Index.initialPage (map Index.HookEvent hs))
    in *.
  cbn [fold_left Index.page_step Index.isSettingsOpen Index.hook Index.panel].
  rewrite Hp. cbn [Index.panel Index.initialPage].
  unfold SettingsPanel.handleSave, SettingsPanel.initialPanel.
  cbn [SettingsPanel.localConfig config initialState].
  rewrite updateConfig_config.
  repeat split.
  unfold updateConfig.
  destruct (locationData (Index.hook before)) as [l|] eqn:Hl;
    cbn [cam_location initialConfig fmap option_fmap option_map];
    [|exact Hl].
  destruct (String.eqb "Detecting location..." (formatted l));
    [exact Hl | reflexivity].
Qed.

(** X20. A refresh of the location that fails replaces the location data
    by the fallback location, whose coordinates are zero, and leaves the
    configuration as it is: the map falls back to its placeholder while
    the configuration keeps the text of the location it had, and vehicles,
    log and statistics are untouched. *)
Theorem X20_failed_refresh_blanks_map_keeps_config
    (toFixed4 : Q -> string) (trim : string -> string)
    (o : FetchOutcome) (s : State)
    (Hfail : fetchAutoLocation toFixed4 trim o = fallbackLocation) :
  let s' :=
    refreshLocation_done (fetchAutoLocation toFixed4 trim o)
                         (refreshLocation_start s) in
  config s' = config s /\
  locationData s' = Some fallbackLocation /\
  isLocationLoading s' = false /\
  LocationMap.view (isLocationLoading s') None (locationData s') =
    LocationMap.Placeholder /\
  vehicles s' = vehicles s /\ logs s' = logs s /\ stats s' = stats s.
Proof.
  cbv zeta. rewrite Hfail. unfold refreshLocation_done, refreshLocation_start.
  cbn [is_auto_detected fallbackLocation]. now repeat split.
Qed.

Lemma X20_failed_refresh_witness :
  fetchAutoLocation (fun _ => "0.0000") (fun x => x) (HttpResponse false None)
    = fallbackLocation /\
  config
    (refreshLocation_done
       (fetchAutoLocation (fun _ => "0.0000") (fun x => x)
                          (HttpResponse false None))
       (refreshLocation_start (detectLocation_done sample_location
                                                   initialState)))
  = config (detectLocation_done sample_location initialState).
Proof.
  split; [reflexivity|].
  apply (X20_failed_refresh_blanks_map_keeps_config
           (fun _ => "0.0000") (fun x => x) (HttpResponse false None)
           (detectLocation_done sample_location initialState) eq_refl).
Defined.

(** ** A limit changed after a detection *)

(** X21. The flag of a listed vehicle is fixed when the vehicle is
    created, while the gauge compares with the limit in force: after a
    detection followed by a change of the configuration, the last vehicle
    of the list is still the detected one with the flag of the old limit,
    and the gauge is in its overspeed colour exactly when that vehicle's
    speed exceeds the new limit. *)
Theorem X21_gauge_follows_new_limit_flags_do_not
    (d : TickDraws) (s : State) (c : CameraConfig) :
  let new := generateRandomVehicle (speedLimit (config s)) (vehicle_draws d) in
  let s' := updateConfig c (detect d s) in
  last (vehicles s') = Some new /\
  isOverspeed new = (speed new >? speedLimit (config s)) /\
  VideoFeed.hasOverspeed (vehicles s') =
    VideoFeed.hasOverspeed (vehicles (detect d s)) /\
  SpeedGauge.isOverspeed (getCurrentSpeed s') (speedLimit (config s')) =
    (speed new >? speedLimit c).
Proof.
  cbv zeta.
  assert (Hlast : last (vehicles (updateConfig c (detect d s))) =
                  Some (generateRandomVehicle (speedLimit (config s))
                                              (vehicle_draws d))).
  { rewrite updateConfig_vehicles, detect_vehicles. unfold updateVehicles.
    apply last_slice_last. lia. }
  split; [exact Hlast|]. split; [reflexivity|].
  split; [now rewrite updateConfig_vehicles|].
  rewrite getCurrentSpeed_last, Hlast, updateConfig_config. reflexivity.
Qed.

(** ** Worked examples *)

Example fast_vehicle_demo :
  let v := generateRandomVehicle 80 (fast_vehicle 1700000000000 "k3j9x0a1b") in
  id v = "v_1700000000000_k3j9x0a1b" /\ speed v = 112 /\ type v = car /\
  isOverspeed v = true.
Proof. vm_compute. auto. Qed.

Example slow_vehicle_demo :
  let v := generateRandomVehicle 80 (slow_vehicle 1700000001500 "zz") in
  id v = "v_1700000001500_zz" /\ speed v = 40 /\ isOverspeed v = false.
Proof. vm_compute. auto. Qed.

Example run_demo :
  let s := run initialState
             [ConnectionTimer; IntervalTick (fast_tick 1000 "a");
              IntervalTick (quiet_tick 2500);
              IntervalTick (slow_tick 4000 "b")] in
  map log_speed (logs s) = [40; 112] /\
  map log_snapshotUrl (logs s) = [None; Some "/snapshots/v_1000_a.jpg"] /\
  totalVehicles (stats s) = 2 /\ overspeedCount (stats s) = 1 /\
  averageSpeed (stats s) = 76 /\ maxSpeedToday (stats s) = 112 /\
  map id (vehicles s) = ["v_4000_b"].
Proof. vm_compute. auto 10. Qed.

Example paused_run_demo :
  logs (run initialState [IntervalTick (fast_tick 1000 "a")]) = [] /\
  logs (run initialState
          [ConnectionTimer; TogglePlay; IntervalTick (fast_tick 1000 "a")])
    = [].
Proof. vm_compute. auto. Qed.

Example fetchAutoLocation_demo :
  let l := fetchAutoLocation (fun _ => "0.0000") (fun x => x)
                             (HttpResponse true (Some sample_data)) in
  city l = "Hyderabad" /\ is_auto_detected l = true /\
  formatted l = "Hyderabad, Telangana, India (Lat: 0.0000, Lon: 0.0000)" /\
  fetchAutoLocation (fun _ => "0.0000") (fun x => x) NetworkError
    = fallbackLocation.
Proof. vm_compute. auto. Qed.

Example stale_panel_demo :
  let p := Index.run_page Index.initialPage
             [Index.HookEvent (LocationDetected sample_location);
              Index.OpenSettings; Index.ClickSave] in
  cam_location (config (Index.hook p)) = "Detecting location..." /\
  (is_auto_detected <$> locationData (Index.hook p)) = Some false /\
  Index.showAutoDetectedBadge p = false.
Proof. vm_compute. auto. Qed.

Example reset_then_save_demo :
  let p := Index.run_page Index.initialPage
             [Index.HookEvent (LocationDetected sample_location);
              Index.OpenSettings; Index.ClickReset; Index.EditSpeedLimit 60;
              Index.ClickSave] in
  cam_location (config (Index.hook p)) = formatted sample_location /\
  speedLimit (config (Index.hook p)) = 60 /\
  Index.showAutoDetectedBadge p = true.
Proof. vm_compute. auto. Qed.
